(** * Optimistic reconciliation of chat messages (ChatPage)

    A shallow embedding of the client reconciliation core of the chat
    page: the live query over the synced message collection, the
    effect that evicts pending entries once they are synced, the merged
    view [allMessages], the two mutation calls [createThread] and
    [addMessage], and the submit handler [handleSend].

    React state is modelled by explicit state passing, arrays that the
    code builds with [push] by a small store of array cells, network
    calls by an oracle that answers each request, and exceptions by an
    error monad with [try]/[catch]/[finally]. *)

From Stdlib Require Import ZArith List String Bool Lia Sorted.
From stdpp Require Import base option list strings pretty gmap.
Import ListNotations.

(** ** Data model *)

(** A [Date] is its value in milliseconds, as [Date.getTime()] gives it. *)
Definition Date := Z.

(** [type Message]: a row of the synced [chat_messages] collection. *)
Module Message.
Record t := mk {
  id : Z;
  thread_id : Z;
  role : string;
  content : string;
  created_at : Date
}.
End Message.

(** The role of a guest message is the union ["user" | "assistant"]. *)
Inductive GuestRole := user | assistant.

Definition role_string (r : GuestRole) : string :=
  match r with
  | user => "user"
  | assistant => "assistant"
  end.

(** [type GuestMessage]. *)
Module GuestMessage.
Record t := mk {
  id : Z;
  role : GuestRole;
  content : string
}.
End GuestMessage.

(** [type DisplayMessage]: [thread_id] and [created_at] are optional
    fields; [None] stands for [undefined]. *)
Module DisplayMessage.
Record t := mk {
  id : Z;
  role : string;
  content : string;
  thread_id : option Z;
  created_at : option Date
}.

(** A [Message] used where a [DisplayMessage] is expected (the two
    types are structurally compatible): both optional fields are set. *)
Definition of_Message (m : Message.t) : t :=
  {| id := Message.id m;
     role := Message.role m;
     content := Message.content m;
     thread_id := Some (Message.thread_id m);
     created_at := Some (Message.created_at m) |}.

(** [guestMessages.map((m) => ({ id: m.id, role: m.role, content: m.content }))] *)
Definition of_Guest (m : GuestMessage.t) : t :=
  {| id := GuestMessage.id m;
     role := role_string (GuestMessage.role m);
     content := GuestMessage.content m;
     thread_id := None;
     created_at := None |}.

(** Replace the id and the timestamp, keep the rest. *)
Definition with_id (i : Z) (d : option Date) (m : t) : t :=
  {| id := i; role := role m; content := content m;
     thread_id := thread_id m; created_at := d |}.
End DisplayMessage.

(** [===] on an optional number: [undefined === undefined] holds, a
    number equals only the same number. *)
Definition strict_eq_opt (a b : option Z) : bool :=
  match a, b with
  | Some x, Some y => Z.eqb x y
  | None, None => true
  | _, _ => false
  end.

(** The arrow function used by both [some] calls:
    [m.role === pending.role && m.content === pending.content &&
     m.thread_id === pending.thread_id]. *)
Definition same_message (m pending : DisplayMessage.t) : bool :=
  String.eqb (DisplayMessage.role m) (DisplayMessage.role pending)
  && String.eqb (DisplayMessage.content m) (DisplayMessage.content pending)
  && strict_eq_opt (DisplayMessage.thread_id m) (DisplayMessage.thread_id pending).

(** The logical key of a message. *)
Definition key (m : DisplayMessage.t) : option Z * string * string :=
  (DisplayMessage.thread_id m, DisplayMessage.role m, DisplayMessage.content m).

(** ** The live query [dbMessages] *)

(** [Array.prototype.sort] with a comparator, as a stable insertion
    sort: [x] goes before the first [y] with [cmp x y <= 0]. *)
Fixpoint insert_cmp {A : Type} (cmp : A -> A -> Z) (x : A) (l : list A) : list A :=
  match l with
  | [] => [x]
  | y :: l' => if Z.leb (cmp x y) 0 then x :: l else y :: insert_cmp cmp x l'
  end.

Definition sort_cmp {A : Type} (cmp : A -> A -> Z) (l : list A) : list A :=
  fold_right (insert_cmp cmp) [] l.

(** [orderBy]: ascending by the selected key; rows with equal keys keep
    their relative order. *)
Definition orderBy {A : Type} (k : A -> Z) (l : list A) : list A :=
  sort_cmp (fun a b => (k a - k b)%Z) l.

(** The order of two rows by a key. *)
Definition by_key {A : Type} (k : A -> Z) (a b : A) : Prop := (k a <= k b)%Z.

(** [where]: keeps the rows that satisfy the predicate. *)
Definition where_ {A : Type} (p : A -> bool) (l : list A) : list A :=
  List.filter p l.

(** The [useLiveQuery] callback of [dbMessages], over the rows the
    collection currently holds. *)
Definition dbMessages_query (isAuthenticated : bool) (activeThreadId : option Z)
    (chatMessages : list Message.t) : list Message.t :=
  let base := orderBy Message.created_at chatMessages in
  match isAuthenticated, activeThreadId with
  | true, Some t => where_ (fun m => Z.eqb (Message.thread_id m) t) base
  | _, _ => where_ (fun m => Z.eqb (Message.thread_id m) (-1)) base
  end.

(** A chat thread as the client holds it. *)
Module Thread.
Record t := mk { id : Z; title : string; created_at : Date }.
End Thread.

(** [sortedThreads]: [[...threads].sort((a, b) => b.id - a.id)] when
    authenticated, else the empty array. *)
Definition sortedThreads (isAuthenticated : bool) (threads : list Thread.t)
    : list Thread.t :=
  if isAuthenticated
  then sort_cmp (fun a b => (Thread.id b - Thread.id a)%Z) threads
  else [].

(** ** The reconcile effect *)

(** [dbMessages.some(...)] for one pending entry. *)
Definition isSynced (dbMessages : list Message.t) (pending : DisplayMessage.t) : bool :=
  existsb (fun m => same_message (DisplayMessage.of_Message m) pending) dbMessages.

(** The body of the effect with dependencies [dbMessages, pendingMessages];
    the result is the pending buffer after the effect ([setPendingMessages]
    is called only when the length changed). *)
Definition reconcile (dbMessages : list Message.t)
    (pendingMessages : list DisplayMessage.t) : list DisplayMessage.t :=
  if Nat.eqb (length pendingMessages) 0 then pendingMessages
  else
    let stillPending :=
      List.filter (fun pending => negb (isSynced dbMessages pending)) pendingMessages in
    if negb (Nat.eqb (length stillPending) (length pendingMessages))
    then stillPending
    else pendingMessages.

(** ** The merged view [allMessages] *)

(** The first [if] chain of [allMessages]. *)
Definition baseMessages (isAuthenticated : bool) (guestMessages : list GuestMessage.t)
    (dbMessages : list Message.t) (activeThreadId : option Z)
    : list DisplayMessage.t :=
  if negb isAuthenticated then map DisplayMessage.of_Guest guestMessages
  else match activeThreadId with
       | Some _ => map DisplayMessage.of_Message dbMessages
       | None => []
       end.

(** One turn of the [for (const pending of pendingMessages)] loop. *)
Definition push_pending (msgs : list DisplayMessage.t) (pending : DisplayMessage.t)
    : list DisplayMessage.t :=
  let alreadyExists := existsb (fun m => same_message m pending) msgs in
  if negb alreadyExists then msgs ++ [pending] else msgs.

(** The entry pushed for a streaming assistant response. *)
Definition streaming_entry (streamingContent : string) : DisplayMessage.t :=
  {| DisplayMessage.id := (-1)%Z;
     DisplayMessage.role := "assistant";
     DisplayMessage.content := streamingContent;
     DisplayMessage.thread_id := None;
     DisplayMessage.created_at := None |}.

(** Truthiness of a string: every string but the empty one. *)
Definition truthy (s : string) : bool := negb (String.eqb s "").

Definition push_streaming (msgs : list DisplayMessage.t) (streamingContent : string)
    : list DisplayMessage.t :=
  if truthy streamingContent then msgs ++ [streaming_entry streamingContent] else msgs.

Definition allMessages (isAuthenticated : bool) (guestMessages : list GuestMessage.t)
    (dbMessages : list Message.t) (activeThreadId : option Z)
    (pendingMessages : list DisplayMessage.t) (streamingContent : string)
    : list DisplayMessage.t :=
  let msgs := baseMessages isAuthenticated guestMessages dbMessages activeThreadId in
  let msgs := fold_left push_pending pendingMessages msgs in
  push_streaming msgs streamingContent.

(** ** The merged view over a store of arrays

    [allMessages] builds its result with [push], which mutates the
    array it is called on.  To see that no input array is touched, the
    arrays live in a store; a location is an index into it. *)
Module Store.
Abbreviation loc := nat (only parsing).
Abbreviation t := (list (list DisplayMessage.t)) (only parsing).

(** A computation over the store. *)
Definition ST (A : Type) : Type := t -> A * t.

Definition ret {A : Type} (x : A) : ST A := fun s => (x, s).

Definition bind {A B : Type} (m : ST A) (k : A -> ST B) : ST B :=
  fun s => let '(x, s') := m s in k x s'.

(** A new array literal, a spread copy or the result of [map]. *)
Definition alloc (l : list DisplayMessage.t) : ST loc :=
  fun s => (length s, s ++ [l]).

(** The elements of an array; a dangling location reads as empty. *)
Definition read (r : loc) : ST (list DisplayMessage.t) :=
  fun s => (default [] (s !! r), s).

(** [r.push(x)] *)
Definition push (r : loc) (x : DisplayMessage.t) : ST unit :=
  fun s => (tt, alter (fun l => l ++ [x]) r s).

(** A [for ... of] loop over the elements an array had when the loop
    started; the only loop of the page pushes to a fresh array, never
    to the one it reads. *)
Fixpoint for_of {A : Type} (l : list A) (body : A -> ST unit) : ST unit :=
  match l with
  | [] => ret tt
  | x :: l' => bind (body x) (fun _ => for_of l' body)
  end.
End Store.

#[global] Instance store_ret : MRet Store.ST := @Store.ret.
#[global] Instance store_bind : MBind Store.ST := fun A B k m => Store.bind m k.

(** The object literal of the guest [map]: only three fields are copied. *)
Definition guest_fields (m : DisplayMessage.t) : DisplayMessage.t :=
  {| DisplayMessage.id := DisplayMessage.id m;
     DisplayMessage.role := DisplayMessage.role m;
     DisplayMessage.content := DisplayMessage.content m;
     DisplayMessage.thread_id := None;
     DisplayMessage.created_at := None |}.

(** One turn of the loop, on the array at [msgs]. *)
Definition push_pending_st (msgs : Store.loc) (pending : DisplayMessage.t)
    : Store.ST unit :=
  cur ← Store.read msgs;
  let alreadyExists := existsb (fun m => same_message m pending) cur in
  if negb alreadyExists then Store.push msgs pending else Store.ret tt.

(** [allMessages] as the code runs it: [baseMessages] may be the
    [dbMessages] array itself, [msgs] is a spread copy of it, and both
    pushes go to [msgs].  The result is the location of [msgs]. *)
Definition allMessages_st (isAuthenticated : bool) (guestMessages dbMessages : Store.loc)
    (activeThreadId : option Z) (pendingMessages : Store.loc)
    (streamingContent : string) : Store.ST Store.loc :=
  baseMessages ←
    (if negb isAuthenticated then
       g ← Store.read guestMessages; Store.alloc (map guest_fields g)
     else match activeThreadId with
          | Some _ => Store.ret dbMessages
          | None => Store.alloc []
          end);
  b ← Store.read baseMessages;
  msgs ← Store.alloc b;
  ps ← Store.read pendingMessages;
  Store.for_of ps (push_pending_st msgs);;
  (if truthy streamingContent
   then Store.push msgs (streaming_entry streamingContent)
   else Store.ret tt);;
  Store.ret msgs.

(** The view as a function of the elements of the three input arrays. *)
Definition allMessages_of_arrays (isAuthenticated : bool)
    (guestMessages dbMessages : list DisplayMessage.t) (activeThreadId : option Z)
    (pendingMessages : list DisplayMessage.t) (streamingContent : string)
    : list DisplayMessage.t :=
  let base :=
    if negb isAuthenticated then map guest_fields guestMessages
    else match activeThreadId with
         | Some _ => dbMessages
         | None => []
         end in
  push_streaming (fold_left push_pending pendingMessages base) streamingContent.

(** What a finished computation left at the location it returned. *)
Definition result_of (r : Store.loc * Store.t) : list DisplayMessage.t :=
  default [] (snd r !! fst r).

(** ** The network *)

(** The JSON body of a request, by endpoint and action. *)
Inductive Body :=
| CreateThreadBody (title : string)
| AddMessageBody (threadId : Z) (role : string) (content : string)
| GuestChatBody (messages : list (string * string)) (model : string)
| AiChatBody (threadId : Z) (messages : list (string * string)) (model : string).

(** A [fetch] call: all of them are POSTs with a JSON body;
    [credentials] says whether [credentials: "include"] is set. *)
Record Request := mkRequest {
  url : string;
  credentials : bool;
  body : Body
}.

(** How a response stream ends: closed by the server ([done]), or
    broken, which rejects the pending [read()]. *)
Inductive StreamEnd := Closed | Aborted.

Record Stream := mkStream {
  chunks : list string;
  stream_end : StreamEnd
}.

(** What [res.json()] gives. *)
Inductive Json :=
| JThread (id : Z) (title : string) (created_at : option string)
| JMessage (id thread_id : Z) (role content : string) (created_at : option string)
| JOther.

Record Response := mkResponse {
  status : Z;
  json : Json;
  stream : option Stream
}.

(** [res.ok]: the status is in the range 200-299. *)
Definition ok (res : Response) : bool :=
  Z.leb 200 (status res) && Z.leb (status res) 299.

(** [fetch] either rejects (the network failed) or resolves to a response,
    whatever its status. *)
Inductive FetchOutcome :=
| Rejected
| Responded (res : Response).

(** ** State and exceptions *)

(** What the handlers can see thrown: [new Error(message)]; the
    rejection of [fetch] on a network failure; the rejection of
    [res.json()] or [reader.read()], or the [TypeError] of reading a
    field the body does not have. *)
Inductive Exn :=
| Error (message : string)
| NetworkFailure
| BodyRejected.

Inductive Result (A : Type) :=
| Ok (a : A)
| Throw (e : Exn).
Arguments Ok {A} a.
Arguments Throw {A} e.

(** The [useState] cells of [ChatPage] that the handlers use, the
    counter kept in [localStorage], and a log of what left the page. *)
Record World := mkWorld {
  input : string;
  isLoading : bool;
  streamingContent : string;
  guestMessages : list GuestMessage.t;
  freeRequestsUsed : Z;
  showAuthPrompt : bool;
  activeThreadId : option Z;
  pendingMessages : list DisplayMessage.t;
  free_request_item : Z;
  requests : list Request;
  console : list Exn
}.

Definition M (A : Type) : Type := World -> Result A * World.

Definition M_ret {A : Type} (x : A) : M A := fun w => (Ok x, w).

Definition M_bind {A B : Type} (m : M A) (k : A -> M B) : M B :=
  fun w =>
    match m w with
    | (Ok x, w') => k x w'
    | (Throw e, w') => (Throw e, w')
    end.

#[global] Instance M_mret : MRet M := @M_ret.
#[global] Instance M_mbind : MBind M := fun A B k m => M_bind m k.

Definition throw {A : Type} (e : Exn) : M A := fun w => (Throw e, w).

(** [try { m } catch (error) { h error }] *)
Definition try_catch {A : Type} (m : M A) (h : Exn -> M A) : M A :=
  fun w =>
    match m w with
    | (Ok x, w') => (Ok x, w')
    | (Throw e, w') => h e w'
    end.

(** [try { m } finally { f }]: [f] runs on both exits. *)
Definition try_finally {A : Type} (m : M A) (f : M unit) : M A :=
  fun w =>
    match m w with
    | (r, w') =>
        match f w' with
        | (Ok _, w'') => (r, w'')
        | (Throw e, w'') => (Throw e, w'')
        end
    end.

Definition modify (f : World -> World) : M unit := fun w => (Ok tt, f w).

Definition setInput (v : string) : M unit :=
  modify (fun w =>
    mkWorld v (isLoading w) (streamingContent w) (guestMessages w) (freeRequestsUsed w)
      (showAuthPrompt w) (activeThreadId w) (pendingMessages w)
      (free_request_item w) (requests w) (console w)).

Definition setIsLoading (v : bool) : M unit :=
  modify (fun w =>
    mkWorld (input w) v (streamingContent w) (guestMessages w) (freeRequestsUsed w)
      (showAuthPrompt w) (activeThreadId w) (pendingMessages w)
      (free_request_item w) (requests w) (console w)).

Definition setStreamingContent (v : string) : M unit :=
  modify (fun w =>
    mkWorld (input w) (isLoading w) v (guestMessages w) (freeRequestsUsed w)
      (showAuthPrompt w) (activeThreadId w) (pendingMessages w)
      (free_request_item w) (requests w) (console w)).

(** [setGuestMessages((prev) => f prev)] *)
Definition setGuestMessages (f : list GuestMessage.t -> list GuestMessage.t) : M unit :=
  modify (fun w =>
    mkWorld (input w) (isLoading w) (streamingContent w) (f (guestMessages w))
      (freeRequestsUsed w) (showAuthPrompt w) (activeThreadId w) (pendingMessages w)
      (free_request_item w) (requests w) (console w)).

Definition setFreeRequestsUsed (v : Z) : M unit :=
  modify (fun w =>
    mkWorld (input w) (isLoading w) (streamingContent w) (guestMessages w) v
      (showAuthPrompt w) (activeThreadId w) (pendingMessages w)
      (free_request_item w) (requests w) (console w)).

Definition setShowAuthPrompt (v : bool) : M unit :=
  modify (fun w =>
    mkWorld (input w) (isLoading w) (streamingContent w) (guestMessages w)
      (freeRequestsUsed w) v (activeThreadId w) (pendingMessages w)
      (free_request_item w) (requests w) (console w)).

Definition setActiveThreadId (v : option Z) : M unit :=
  modify (fun w =>
    mkWorld (input w) (isLoading w) (streamingContent w) (guestMessages w)
      (freeRequestsUsed w) (showAuthPrompt w) v (pendingMessages w)
      (free_request_item w) (requests w) (console w)).

(** [setPendingMessages((prev) => f prev)] *)
Definition setPendingMessages (f : list DisplayMessage.t -> list DisplayMessage.t)
    : M unit :=
  modify (fun w =>
    mkWorld (input w) (isLoading w) (streamingContent w) (guestMessages w)
      (freeRequestsUsed w) (showAuthPrompt w) (activeThreadId w) (f (pendingMessages w))
      (free_request_item w) (requests w) (console w)).

Definition set_free_request_item (v : Z) : M unit :=
  modify (fun w =>
    mkWorld (input w) (isLoading w) (streamingContent w) (guestMessages w)
      (freeRequestsUsed w) (showAuthPrompt w) (activeThreadId w) (pendingMessages w)
      v (requests w) (console w)).

Definition log_request (req : Request) : M unit :=
  modify (fun w =>
    mkWorld (input w) (isLoading w) (streamingContent w) (guestMessages w)
      (freeRequestsUsed w) (showAuthPrompt w) (activeThreadId w) (pendingMessages w)
      (free_request_item w) (requests w ++ [req]) (console w)).

(** [console.error("Chat error:", error)] *)
Definition console_error (e : Exn) : M unit :=
  modify (fun w =>
    mkWorld (input w) (isLoading w) (streamingContent w) (guestMessages w)
      (freeRequestsUsed w) (showAuthPrompt w) (activeThreadId w) (pendingMessages w)
      (free_request_item w) (requests w) (console w ++ [e])).

Definition FREE_REQUEST_LIMIT : Z := 1.

(** [getFreeRequestCount] and [incrementFreeRequestCount], over the
    number stored under [FREE_REQUEST_KEY]. *)
Definition getFreeRequestCount : M Z := fun w => (Ok (free_request_item w), w).

Definition incrementFreeRequestCount : M Z :=
  c ← getFreeRequestCount;
  let count := (c + 1)%Z in
  set_free_request_item count;;
  mret count.

(** [String.prototype.trim] on the white space of the ASCII range:
    tab, line feed, vertical tab, form feed, carriage return, space. *)
Definition is_space (c : Ascii.ascii) : bool :=
  let n := Ascii.nat_of_ascii c in
  (Nat.leb 9 n && Nat.leb n 13) || Nat.eqb n 32.

Fixpoint trim_start (s : string) : string :=
  match s with
  | String c s' => if is_space c then trim_start s' else s
  | EmptyString => EmptyString
  end.

Fixpoint trim_end (s : string) : string :=
  match s with
  | String c s' =>
      match trim_end s' with
      | EmptyString => if is_space c then EmptyString else String c EmptyString
      | t => String c t
      end
  | EmptyString => EmptyString
  end.

Definition ascii_trim (s : string) : string := trim_end (trim_start s).

(** ** Mutations and the submit handler *)

Section Handlers.
(** [String.prototype.trim], [new Date(string)], the answer of the
    network to each request, and the clock: [now] is what [Date.now()]
    and [new Date()] read before the completion is streamed, [later]
    what they read after it. *)
Variable trim : string -> string.
Variable new_Date : string -> Date.
Variable net : Request -> FetchOutcome.
Variable now : Z.
Variable later : Z.

(** [await fetch(...)]: one request leaves the page; a network failure
    rejects. *)
Definition fetch (req : Request) : M Response :=
  log_request req;;
  match net req with
  | Rejected => throw NetworkFailure
  | Responded res => mret res
  end.

(** [created_at ? new Date(created_at) : new Date()] *)
Definition date_or_now (created_at : option string) : Date :=
  match created_at with
  | Some s => if truthy s then new_Date s else now
  | None => now
  end.

(** [createThread(title = "New chat")] *)
Definition createThread (title : option string) : M Thread.t :=
  let title := default "New chat" title in
  res ← fetch (mkRequest "/api/chat/mutations" true (CreateThreadBody title));
  if negb (ok res) then throw (Error "Failed to create chat")
  else
    match json res with
    | JThread id title created_at =>
        mret (Thread.mk id title (date_or_now created_at))
    | _ => throw BodyRejected
    end.

(** [addMessage({ threadId, role, content })] *)
Definition addMessage (threadId : Z) (role content : string) : M Message.t :=
  res ← fetch (mkRequest "/api/chat/mutations" true
                 (AddMessageBody threadId role content));
  if negb (ok res) then throw (Error "Failed to add message")
  else
    match json res with
    | JMessage id thread_id role content created_at =>
        mret (Message.mk id thread_id role content (date_or_now created_at))
    | _ => throw BodyRejected
    end.

(** The [while (true)] loop over [reader.read()]: every chunk is
    appended to [accumulated] and published; [done] ends the loop, a
    broken stream rejects the read. *)
Fixpoint read_stream (chunks : list string) (e : StreamEnd) (accumulated : string)
    : M string :=
  match chunks with
  | [] =>
      match e with
      | Closed => mret accumulated
      | Aborted => throw BodyRejected
      end
  | chunk :: rest =>
      let accumulated := (accumulated ++ chunk)%string in
      setStreamingContent accumulated;;
      read_stream rest e accumulated
  end.

(** From the response to the accumulated text, as both paths do it. *)
Definition read_response (res : Response) : M string :=
  if negb (ok res)
  then throw (Error ("AI request failed: " ++ pretty (status res)))
  else
    match stream res with
    | None => throw (Error "No response body")
    | Some s => read_stream (chunks s) (stream_end s) ""
    end.

(** The [try] block of the guest path. *)
Definition guest_send (guestMessages0 : list GuestMessage.t) (selectedModel : string)
    (userMessage : string) : M unit :=
  let newUserMsg := GuestMessage.mk now user userMessage in
  setGuestMessages (fun prev => prev ++ [newUserMsg]);;
  let messages :=
    map (fun m => (role_string (GuestMessage.role m), GuestMessage.content m))
        guestMessages0
    ++ [("user", userMessage)] in
  res ← fetch (mkRequest "/api/chat/guest" false (GuestChatBody messages selectedModel));
  accumulated ← read_response res;
  let newAssistantMsg := GuestMessage.mk (later + 1) assistant accumulated in
  setGuestMessages (fun prev => prev ++ [newAssistantMsg]);;
  setStreamingContent "";;
  newCount ← incrementFreeRequestCount;
  setFreeRequestsUsed newCount;;
  if Z.leb FREE_REQUEST_LIMIT newCount then setShowAuthPrompt true else mret tt.

(** The [try] block of the authenticated path. *)
Definition auth_send (activeThreadId0 : option Z) (dbMessages : list Message.t)
    (selectedModel : string) (userMessage : string) : M unit :=
  threadId ←
    match activeThreadId0 with
    | Some t =>
        if Z.eqb t 0
        then thread ← createThread (Some (let t := substring 0 40 userMessage in
                                          if truthy t then t else "New chat"));
             setActiveThreadId (Some (Thread.id thread));;
             mret (Thread.id thread)
        else mret t
    | None =>
        thread ← createThread (Some (let t := substring 0 40 userMessage in
                                     if truthy t then t else "New chat"));
        setActiveThreadId (Some (Thread.id thread));;
        mret (Thread.id thread)
    end;
  let pendingUserMsg :=
    DisplayMessage.mk now "user" userMessage (Some threadId) (Some now) in
  setPendingMessages (fun prev => prev ++ [pendingUserMsg]);;
  addMessage threadId "user" userMessage;;
  let threadMessages :=
    List.filter (fun m => Z.eqb (Message.thread_id m) threadId) dbMessages in
  let messages :=
    map (fun m => (Message.role m, Message.content m)) threadMessages
    ++ [("user", userMessage)] in
  res ← fetch (mkRequest "/api/chat/ai" true (AiChatBody threadId messages selectedModel));
  accumulated ← read_response res;
  (if truthy accumulated then
     let pendingAssistantMsg :=
       DisplayMessage.mk (later + 1) "assistant" accumulated (Some threadId) (Some later) in
     setPendingMessages (fun prev => prev ++ [pendingAssistantMsg])
   else mret tt);;
  setStreamingContent "".

(** The [catch] block of both paths. *)
Definition on_chat_error (error : Exn) : M unit :=
  console_error error;;
  setStreamingContent "".

(** [handleSend]; the values the closure captured ([input], [isLoading],
    [freeRequestsUsed], [guestMessages], [activeThreadId]) are those of
    the state it is run in. *)
Definition handleSend (isAuthenticated : bool) (dbMessages : list Message.t)
    (selectedModel : string) : M unit :=
  fun w0 =>
    (if negb (truthy (trim (input w0))) || isLoading w0 then mret tt
     else
       let userMessage := trim (input w0) in
       setInput "";;
       setIsLoading true;;
       setStreamingContent "";;
       if negb isAuthenticated then
         if Z.leb FREE_REQUEST_LIMIT (freeRequestsUsed w0) then
           setShowAuthPrompt true;;
           setIsLoading false
         else
           try_finally
             (try_catch (guest_send (guestMessages w0) selectedModel userMessage)
                        on_chat_error)
             (setIsLoading false)
       else
         try_finally
           (try_catch (auth_send (activeThreadId w0) dbMessages selectedModel userMessage)
                      on_chat_error)
           (setIsLoading false)) w0.
End Handlers.

(** The view the page renders in a given state. *)
Definition view (isAuthenticated : bool) (dbMessages : list Message.t) (w : World)
    : list DisplayMessage.t :=
  allMessages isAuthenticated (guestMessages w) dbMessages (activeThreadId w)
    (pendingMessages w) (streamingContent w).

(** A replica update: the live query delivers a new [dbMessages], which
    is a dependency of the reconcile effect, so the effect runs. *)
Definition replica_update (dbMessages : list Message.t) (w : World) : World :=
  mkWorld (input w) (isLoading w) (streamingContent w) (guestMessages w)
    (freeRequestsUsed w) (showAuthPrompt w) (activeThreadId w)
    (reconcile dbMessages (pendingMessages w))
    (free_request_item w) (requests w) (console w).

(** ** The shape route of [chat_messages] *)
Module Shape.
(** What the [/api/chat-messages] route answers. *)
Inductive Reply :=
| Unauthorized
| Rows (rows : list Message.t).

(** A row of the server's [chat_threads] table: its id and its owner. *)
Record thread_row := mk_thread_row { id : Z; user_id : string }.

(** Modelled from the spec: [proxyElectricRequest] (lib/electric-proxy)
    forwards the request with the [where] clause set by the route; the
    shape it returns is the rows of the table that satisfy the clause. *)
Definition proxyElectricRequest (where_clause : Message.t -> bool)
    (chat_messages : list Message.t) : Reply :=
  Rows (List.filter where_clause chat_messages).

(** [serve] of the [/api/chat-messages] route.  [session] is
    [session?.user?.id]: [None] when the session, its user or the id is
    missing.  The guard [!session?.user?.id] answers 401 for a missing
    id and also for the empty one; else the shape is the messages of
    the user's threads, or the impossible clause ["thread_id" = -1]
    when the user has no thread.  The ids of [chat_threads] are whole
    numbers, so the [Number.isInteger] filter of the route keeps them
    all. *)
Definition serve (session : option string) (chat_threads : list thread_row)
    (chat_messages : list Message.t) : Reply :=
  match session with
  | None => Unauthorized
  | Some uid =>
      if negb (truthy uid) then Unauthorized
      else
        let userThreads := List.filter (fun t => String.eqb (user_id t) uid) chat_threads in
        let threadIds := map id userThreads in
        if Nat.ltb 0 (length threadIds)
        then proxyElectricRequest
               (fun m => existsb (Z.eqb (Message.thread_id m)) threadIds) chat_messages
        else proxyElectricRequest
               (fun m => Z.eqb (Message.thread_id m) (-1)) chat_messages
  end.
End Shape.

(** ** Concrete inputs used by the examples below *)
Module Scenario.
Local Open Scope Z_scope.

(** Two optimistic copies of the same text in thread 7. *)
Definition hello1 : DisplayMessage.t :=
  DisplayMessage.mk 1700000000001 "user" "Hello" (Some 7%Z) (Some 1700000000001%Z).
Definition hello2 : DisplayMessage.t :=
  DisplayMessage.mk 1700000000002 "user" "Hello" (Some 7%Z) (Some 1700000000002%Z).
Definition other : DisplayMessage.t :=
  DisplayMessage.mk 1700000000003 "user" "Bye" (Some 7%Z) (Some 1700000000003%Z).

(** The confirmed row of the first copy. *)
Definition confirmed101 : Message.t := Message.mk 101 7 "user" "Hello" 1700000000500.
Definition confirmed100 : Message.t := Message.mk 100 7 "assistant" "Hi" 1700000000100.

Definition guest1 : GuestMessage.t := GuestMessage.mk 1 user "Hello".

(** A store with the three input arrays of [allMessages] at 0, 1, 2. *)
Definition store0 : Store.t :=
  [ [DisplayMessage.of_Guest guest1];
    [DisplayMessage.of_Message confirmed100; DisplayMessage.of_Message confirmed101];
    [hello1; other] ].

(** A signed-in page with thread 7 open and the text "Hello" typed. *)
Definition signed_in : World :=
  mkWorld "Hello" false "" [] 0 false (Some 7%Z) [] 0 [] [].

(** A guest who has used the free request and typed again. *)
Definition guest_used : World :=
  mkWorld "again" false "" [guest1] 1 false None [] 1 [] [].

(** A signed-in page with thread 7 open and the given pending buffer. *)
Definition with_pending (pending : list DisplayMessage.t) : World :=
  mkWorld "" false "" [] 0 false (Some 7) pending 0 [] [].

Definition new_Date0 (s : string) : Date := 0.

(** A network that stores the message and then breaks the completion
    stream after two chunks. *)
Definition net_abort (req : Request) : FetchOutcome :=
  match body req with
  | CreateThreadBody title => Responded (mkResponse 200 (JThread 7 title None) None)
  | AddMessageBody t r c => Responded (mkResponse 200 (JMessage 101 t r c None) None)
  | _ => Responded (mkResponse 200 JOther (Some (mkStream ["Hi "; "there"] Aborted)))
  end.

(** A server that answers every request with the given status. *)
Definition net_status (s : Z) (req : Request) : FetchOutcome :=
  Responded (mkResponse s JOther None).

(** A server that creates thread 9. *)
Definition net_created (req : Request) : FetchOutcome :=
  Responded (mkResponse 200 (JThread 9 "New chat" None) None).
End Scenario.

(** ** The thread selection effect *)

(** The effect with dependencies [sortedThreads, activeThreadId,
    isAuthenticated]: it opens the first thread of [sortedThreads] when
    none is open, and closes the thread of a guest.  The result is
    [activeThreadId] after the effect. *)
Definition select_thread (isAuthenticated : bool) (sorted : list Thread.t)
    (activeThreadId : option Z) : option Z :=
  let activeThreadId1 :=
    match activeThreadId, sorted with
    | None, first :: _ => if isAuthenticated then Some (Thread.id first) else activeThreadId
    | _, _ => activeThreadId
    end in
  if negb isAuthenticated then None else activeThreadId1.

(** ** Preferences kept in [localStorage] *)
Module LocalStorage.
(** A browser window: its [localStorage] and what
    [matchMedia("(prefers-color-scheme: dark)").matches] answers.
    Where [typeof window === "undefined"] there is no window. *)
Record Window := mkWindow {
  localStorage : gmap string string;
  prefers_dark : bool
}.

Definition MODEL_STORAGE_KEY : string := "gen_chat_model".
Definition DARK_MODE_KEY : string := "gen_chat_dark_mode".

Record Model := mkModel { id : string; name : string; provider : string }.

Definition AVAILABLE_MODELS : list Model :=
  [ mkModel "google/gemini-2.0-flash-001" "Gemini 2.0 Flash" "Google";
    mkModel "anthropic/claude-sonnet-4" "Claude Sonnet 4" "Anthropic";
    mkModel "openai/gpt-4o" "GPT-4o" "OpenAI" ].

(** [AVAILABLE_MODELS[0].id] *)
Definition default_model : string := "google/gemini-2.0-flash-001".

(** [getStoredDarkMode] *)
Definition getStoredDarkMode (window : option Window) : bool :=
  match window with
  | None => false
  | Some w =>
      match localStorage w !! DARK_MODE_KEY with
      | Some stored => String.eqb stored "true"
      | None => prefers_dark w
      end
  end.

(** [getStoredModel] *)
Definition getStoredModel (window : option Window) : string :=
  match window with
  | None => default_model
  | Some w =>
      match localStorage w !! MODEL_STORAGE_KEY with
      | Some stored =>
          if truthy stored && existsb (fun m => String.eqb (id m) stored) AVAILABLE_MODELS
          then stored
          else default_model
      | None => default_model
      end
  end.

(** [setStoredModel] *)
Definition setStoredModel (model : string) (w : Window) : Window :=
  mkWindow (<[MODEL_STORAGE_KEY := model]> (localStorage w)) (prefers_dark w).
End LocalStorage.

(** ** The lazily created collections *)
Module Collections.
(** The two module variables, and the ids of the collections made so
    far; the handle of a collection is its position in that list. *)
Record Registry := mkRegistry {
  _chatThreadsCollection : option nat;
  _chatMessagesCollection : option nat;
  created : list string
}.

(** The module as loaded: [usersCollection] is made at once, the two
    chat collections are not made yet. *)
Definition initial : Registry := mkRegistry None None ["users"].

(** [createCollection(electricCollectionOptions({ id, ... }))] *)
Definition createCollection (id : string) (r : Registry) : nat * Registry :=
  (length (created r),
   mkRegistry (_chatThreadsCollection r) (_chatMessagesCollection r) (created r ++ [id])).

Definition createChatThreadsCollection (r : Registry) : nat * Registry :=
  createCollection "chat_threads" r.

Definition createChatMessagesCollection (r : Registry) : nat * Registry :=
  createCollection "chat_messages" r.

(** [getChatThreadsCollection] *)
Definition getChatThreadsCollection (r : Registry) : nat * Registry :=
  match _chatThreadsCollection r with
  | Some c => (c, r)
  | None =>
      let '(c, r') := createChatThreadsCollection r in
      (c, mkRegistry (Some c) (_chatMessagesCollection r') (created r'))
  end.

(** [getChatMessagesCollection] *)
Definition getChatMessagesCollection (r : Registry) : nat * Registry :=
  match _chatMessagesCollection r with
  | Some c => (c, r)
  | None =>
      let '(c, r') := createChatMessagesCollection r in
      (c, mkRegistry (_chatThreadsCollection r') (Some c) (created r'))
  end.

(** A call of one of the two getters. *)
Inductive Getter := GetThreads | GetMessages.

Definition call (g : Getter) (r : Registry) : nat * Registry :=
  match g with
  | GetThreads => getChatThreadsCollection r
  | GetMessages => getChatMessagesCollection r
  end.

(** A sequence of calls, with what each call returned. *)
Fixpoint calls (gs : list Getter) (r : Registry) : list (Getter * nat) * Registry :=
  match gs with
  | [] => ([], r)
  | g :: gs' =>
      let '(c, r1) := call g r in
      let '(cs, r2) := calls gs' r1 in
      ((g, c) :: cs, r2)
  end.
End Collections.

(** The registry is well formed: each variable that is set names a
    collection made under its own id, and besides [usersCollection] a
    collection was made for each variable that is set, and for no
    other reason. *)
Definition registry_ok (r : Collections.Registry) : Prop :=
  (forall c, Collections._chatThreadsCollection r = Some c ->
             Collections.created r !! c = Some "chat_threads"%string)
  /\ (forall c, Collections._chatMessagesCollection r = Some c ->
                Collections.created r !! c = Some "chat_messages"%string)
  /\ length (Collections.created r)
     = 1
       + match Collections._chatThreadsCollection r with Some _ => 1 | None => 0 end
       + match Collections._chatMessagesCollection r with Some _ => 1 | None => 0 end.

(** ** The file view: sizes and extensions *)
Module FileView.
(** [s.split(sep)] for a one-character separator: the pieces between
    the separators, one piece for a string without any. *)
Fixpoint split (sep : Ascii.ascii) (s : string) : list string :=
  match s with
  | EmptyString => [EmptyString]
  | String c s' =>
      if Ascii.eqb c sep then EmptyString :: split sep s'
      else match split sep s' with
           | piece :: rest => String c piece :: rest
           | [] => [String c EmptyString]
           end
  end.

(** [String.prototype.toLowerCase] on the letters of the ASCII range. *)
Definition lower_ascii (c : Ascii.ascii) : Ascii.ascii :=
  let n := Ascii.nat_of_ascii c in
  if Nat.leb 65 n && Nat.leb n 90 then Ascii.ascii_of_nat (n + 32) else c.

Fixpoint ascii_toLowerCase (s : string) : string :=
  match s with
  | EmptyString => EmptyString
  | String c s' => String (lower_ascii c) (ascii_toLowerCase s')
  end.

Definition dot : Ascii.ascii := Ascii.ascii_of_nat 46.

(** [getFileExtension], over any [toLowerCase]. *)
Definition getFileExtension (toLowerCase : string -> string) (path : string) : string :=
  let parts := split dot path in
  if Nat.ltb 1 (length parts) then toLowerCase (List.last parts EmptyString)
  else EmptyString.

(** The tenths shown by [x.toFixed(1)] for the fraction [num / den]
    (positive [den]): the integer [n] with [n / 10] nearest to the
    fraction, the larger one on a tie. *)
Definition tenths (num den : Z) : Z := ((2 * 10 * num + den) / (2 * den))%Z.

(** [(num / den).toFixed(1)] for a fraction that is not negative and is
    below 10^21 (positive [den]): the digits of the tenths, with the
    point before the last one.  From 10^21 on [toFixed] switches to the
    exponent notation, which is not modelled: there the result is
    [None]. *)
Definition toFixed1 (num den : Z) : option string :=
  if Z.leb 0 num && Z.ltb num (den * 10 ^ 21) then
    let n := tenths num den in
    Some (pretty (n / 10)%Z ++ "." ++ pretty (n mod 10)%Z)%string
  else None.

Definition MAX_SAFE_INTEGER : Z := (2 ^ 53 - 1)%Z.

(** [humanizeSize], on a whole number of bytes that the number type of
    the source holds exactly (up to [MAX_SAFE_INTEGER] either way): the
    quotients by 1024 and by 1024 * 1024 are then exact.  Other numbers
    are not modelled: there the result is [None]. *)
Definition humanizeSize (bytes : Z) : option string :=
  if negb (Z.leb (Z.abs bytes) MAX_SAFE_INTEGER) then None
  else if Z.ltb bytes 1024 then Some (pretty bytes ++ " B")%string
  else if Z.ltb bytes (1024 * 1024)
  then option_map (fun s => (s ++ " KB")%string) (toFixed1 bytes 1024)
  else option_map (fun s => (s ++ " MB")%string) (toFixed1 bytes (1024 * 1024)).
End FileView.

(** ** More concrete inputs *)
Module Example.
Local Open Scope Z_scope.

(** A network where everything works: thread 9 is created, the message
    is stored, and the completion streams "Hi " and "there". *)
Definition net_ok (req : Request) : FetchOutcome :=
  match body req with
  | CreateThreadBody title => Responded (mkResponse 200 (JThread 9 title None) None)
  | AddMessageBody t r c => Responded (mkResponse 200 (JMessage 101 t r c None) None)
  | _ => Responded (mkResponse 200 JOther (Some (mkStream ["Hi "; "there"] Closed)))
  end.

(** A network where threads are created but messages are refused. *)
Definition net_no_add (req : Request) : FetchOutcome :=
  match body req with
  | CreateThreadBody title => Responded (mkResponse 200 (JThread 9 title None) None)
  | _ => Responded (mkResponse 500 JOther None)
  end.

(** A guest who has not sent anything yet. *)
Definition guest_fresh : World :=
  mkWorld "Hello" false "" [] 0 false None [] 0 [] [].

(** A signed-in page with no thread open. *)
Definition signed_in_no_thread : World :=
  mkWorld "  Hello  " false "" [] 0 false None [] 0 [] [].

Definition thread3 : Thread.t := Thread.mk 3 "three" 30.
Definition thread8 : Thread.t := Thread.mk 8 "eight" 10.
Definition thread5 : Thread.t := Thread.mk 5 "five" 20.

Definition row7a : Message.t := Message.mk 100 7 "user" "Hello" 50.
Definition row7b : Message.t := Message.mk 102 7 "assistant" "Hi" 40.
Definition row8 : Message.t := Message.mk 101 8 "user" "Other" 45.


Definition window0 : LocalStorage.Window :=
  LocalStorage.mkWindow (<["gen_chat_dark_mode" := "false"%string]> ∅) true.
End Example.

(** * Properties *)

(** ** Matching is equality of keys *)

Lemma strict_eq_opt_eq (a b : option Z) : strict_eq_opt a b = true <-> a = b.
Proof.
  destruct a as [x|], b as [y|]; simpl; try (split; congruence).
  rewrite Z.eqb_eq. split; congruence.
Qed.

Lemma same_message_key (m p : DisplayMessage.t) :
  same_message m p = true <-> key m = key p.
Proof.
  unfold same_message, key.
  rewrite !andb_true_iff, !String.eqb_eq, strict_eq_opt_eq.
  split.
  - intros [[-> ->] ->]. reflexivity.
  - intros Heq. injection Heq as -> -> ->. auto.
Qed.

Lemma same_message_key_false (m p : DisplayMessage.t) :
  same_message m p = false <-> key m <> key p.
Proof.
  rewrite <- same_message_key. destruct (same_message m p); split; congruence.
Qed.

Lemma key_with_id (i : Z) (d : option Date) (p : DisplayMessage.t) :
  key (DisplayMessage.with_id i d p) = key p.
Proof. reflexivity. Qed.

(** A pending entry is synced exactly when a row has its key. *)
Lemma isSynced_true (db : list Message.t) (p : DisplayMessage.t) :
  isSynced db p = true <->
  exists m, In m db /\ key (DisplayMessage.of_Message m) = key p.
Proof.
  unfold isSynced. rewrite existsb_exists.
  split; intros (m & Hin & Hm); exists m; split; auto; now apply same_message_key.
Qed.

Lemma isSynced_false (db : list Message.t) (p : DisplayMessage.t) :
  isSynced db p = false <->
  forall m, In m db -> key (DisplayMessage.of_Message m) <> key p.
Proof.
  split.
  - intros Hf m Hin Hk.
    assert (isSynced db p = true) by (apply isSynced_true; eauto). congruence.
  - intros Hall. destruct (isSynced db p) eqn:E; [|reflexivity].
    apply isSynced_true in E as (m & Hin & Hk). now destruct (Hall m Hin).
Qed.

(** ** The reconcile effect is a filter *)

Lemma filter_same_length {A : Type} (f : A -> bool) (l : list A) :
  length (List.filter f l) = length l -> List.filter f l = l.
Proof.
  induction l as [|x l IH]; simpl; [reflexivity|].
  destruct (f x); simpl; intros Hlen.
  - f_equal. apply IH. lia.
  - pose proof (filter_length_le f l). lia.
Qed.

Lemma reconcile_filter (db : list Message.t) (pending : list DisplayMessage.t) :
  reconcile db pending = List.filter (fun p => negb (isSynced db p)) pending.
Proof.
  unfold reconcile.
  destruct (Nat.eqb_spec (length pending) 0) as [Hz|_].
  - destruct pending; [reflexivity | discriminate].
  - destruct (Nat.eqb_spec
                (length (List.filter (fun p => negb (isSynced db p)) pending))
                (length pending)) as [He|_]; simpl.
    + symmetry. now apply filter_same_length.
    + reflexivity.
Qed.

Lemma filter_sublist_of {A : Type} (f : A -> bool) (l : list A) :
  List.filter f l `sublist_of` l.
Proof.
  induction l as [|x l IH]; simpl.
  - constructor.
  - destruct (f x); now constructor.
Qed.

Lemma filter_all_true {A : Type} (f : A -> bool) (l : list A) :
  Forall (fun x => f x = true) l -> List.filter f l = l.
Proof.
  induction 1 as [|x l Hx _ IH]; simpl; [reflexivity|].
  rewrite Hx. now f_equal.
Qed.

Lemma In_reconcile (db : list Message.t) (pending : list DisplayMessage.t)
    (q : DisplayMessage.t) :
  In q (reconcile db pending) <-> In q pending /\ isSynced db q = false.
Proof.
  rewrite reconcile_filter, filter_In, negb_true_iff. reflexivity.
Qed.

(** The effect settles after one pass: running it again changes nothing. *)
Lemma reconcile_idempotent (db : list Message.t) (pending : list DisplayMessage.t) :
  reconcile db (reconcile db pending) = reconcile db pending.
Proof.
  rewrite !reconcile_filter. apply filter_all_true.
  apply List.Forall_forall. intros q Hq. now apply filter_In in Hq.
Qed.

(** C10: a reconcile pass only shrinks the buffer.  The buffer after the
    pass is an order-preserving subsequence of the buffer before it, so
    nothing is added, changed or moved; and when no pending entry is
    synced the buffer is the same as before. *)
Theorem reconcile_only_shrinks (db : list Message.t) (pending : list DisplayMessage.t) :
  reconcile db pending `sublist_of` pending
  /\ (Forall (fun p => isSynced db p = false) pending -> reconcile db pending = pending).
Proof.
  rewrite reconcile_filter. split.
  - apply filter_sublist_of.
  - intros Hall. apply filter_all_true.
    eapply List.Forall_impl; [|exact Hall]. intros p Hp. simpl in Hp. now rewrite Hp.
Qed.

(** The second part of C10 at a buffer no row of which is synced. *)
Lemma reconcile_only_shrinks_witness :
  reconcile [Scenario.confirmed100] [Scenario.hello1; Scenario.other]
  = [Scenario.hello1; Scenario.other].
Proof.
  apply (reconcile_only_shrinks [Scenario.confirmed100]
           [Scenario.hello1; Scenario.other]).
  repeat constructor.
Defined.

(** C2: when the replica delivers a set of rows that has a row with the
    key (thread_id, role, content) of a pending entry, the reconcile pass
    triggered by that delivery removes the entry.  The match is on the
    key alone: every pending entry with that key goes, whatever its id,
    and an entry whose key no row has stays, whatever its id. *)
Theorem reconcile_removes_synced (w : World) (db : list Message.t)
    (p : DisplayMessage.t) (m : Message.t) :
  In p (pendingMessages w) ->
  In m db ->
  key (DisplayMessage.of_Message m) = key p ->
  ~ In p (pendingMessages (replica_update db w))
  /\ (forall i d, ~ In (DisplayMessage.with_id i d p) (pendingMessages (replica_update db w)))
  /\ (forall q, In q (pendingMessages w) ->
                (forall m', In m' db -> key (DisplayMessage.of_Message m') <> key q) ->
                In q (pendingMessages (replica_update db w))).
Proof.
  intros Hp Hm Hk. simpl.
  assert (Hsync : isSynced db p = true) by (apply isSynced_true; eauto).
  repeat split.
  - rewrite In_reconcile. intros [_ Hf]. congruence.
  - intros i d. rewrite In_reconcile. intros [_ Hf].
    assert (isSynced db (DisplayMessage.with_id i d p) = true).
    { apply isSynced_true. exists m. split; [assumption|]. now rewrite key_with_id. }
    congruence.
  - intros q Hq Hnone. apply In_reconcile. split; [assumption|].
    now apply isSynced_false.
Qed.

(** C2 at the scenario of the specification: "Hello" pending in thread 7,
    then row 101 arrives. *)
Lemma reconcile_removes_synced_witness :
  key (DisplayMessage.of_Message Scenario.confirmed101) = key Scenario.hello1
  /\ ~ In Scenario.hello1
        (pendingMessages
           (replica_update [Scenario.confirmed101]
              (Scenario.with_pending [Scenario.hello1; Scenario.other]))).
Proof.
  split; [reflexivity|].
  apply (reconcile_removes_synced (Scenario.with_pending [Scenario.hello1; Scenario.other])
           [Scenario.confirmed101] Scenario.hello1 Scenario.confirmed101).
  - simpl. left. reflexivity.
  - simpl. left. reflexivity.
  - reflexivity.
Defined.

(** C6, as stated, fails: with two pending copies of "Hello" in thread 7
    and a single confirmed row "Hello", one reconcile pass removes both
    copies and leaves the buffer empty. *)
Lemma one_confirmation_removes_both_copies :
  key Scenario.hello1 = key Scenario.hello2
  /\ length [Scenario.confirmed101] = 1
  /\ reconcile [Scenario.confirmed101] [Scenario.hello1; Scenario.hello2] = [].
Proof. repeat split. Qed.

(** C6, amended: a delivered confirmation removes every pending entry
    that has its key, all copies in the same pass; the entries whose key
    no confirmed row has are all kept, copies included. *)
Theorem reconcile_removes_all_copies (db : list Message.t)
    (pending : list DisplayMessage.t) (m : Message.t) :
  In m db ->
  Forall (fun q => key q <> key (DisplayMessage.of_Message m)) (reconcile db pending)
  /\ reconcile db pending = List.filter (fun q => negb (isSynced db q)) pending.
Proof.
  intros Hm. split.
  - apply List.Forall_forall. intros q Hq Hk.
    apply In_reconcile in Hq as [_ Hf].
    assert (isSynced db q = true) by (apply isSynced_true; eauto). congruence.
  - apply reconcile_filter.
Qed.

Lemma reconcile_removes_all_copies_witness :
  In Scenario.confirmed101 [Scenario.confirmed101]
  /\ Forall (fun q => key q <> key (DisplayMessage.of_Message Scenario.confirmed101))
       (reconcile [Scenario.confirmed101]
          [Scenario.hello1; Scenario.other; Scenario.hello2]).
Proof.
  split; [simpl; left; reflexivity|].
  apply (reconcile_removes_all_copies [Scenario.confirmed101]
           [Scenario.hello1; Scenario.other; Scenario.hello2] Scenario.confirmed101).
  simpl. left. reflexivity.
Defined.

(** ** The pending loop of [allMessages] *)

Lemma push_pending_cases (msgs : list DisplayMessage.t) (p : DisplayMessage.t) :
  (push_pending msgs p = msgs /\ exists m, In m msgs /\ key m = key p)
  \/ (push_pending msgs p = msgs ++ [p] /\ forall m, In m msgs -> key m <> key p).
Proof.
  unfold push_pending.
  destruct (existsb (fun m => same_message m p) msgs) eqn:E; simpl.
  - left. split; [reflexivity|].
    apply existsb_exists in E as (m & Hin & Hm).
    exists m. split; [assumption|]. now apply same_message_key.
  - right. split; [reflexivity|].
    intros m Hin Hk.
    assert (existsb (fun m => same_message m p) msgs = true).
    { apply existsb_exists. exists m. split; [assumption|]. now apply same_message_key. }
    congruence.
Qed.

(** What the loop appends: a subsequence of the pending buffer, no key
    of which is in the list the loop started from, and no key twice. *)
Lemma fold_push_pending (pending : list DisplayMessage.t) :
  forall msgs, exists appended,
    fold_left push_pending pending msgs = msgs ++ appended
    /\ appended `sublist_of` pending
    /\ (forall p m, In p appended -> In m msgs -> key m <> key p)
    /\ List.NoDup (map key appended).
Proof.
  induction pending as [|p pending IH]; intros msgs; simpl.
  - exists []. rewrite app_nil_r. repeat split; try constructor. intros ? ? [].
  - destruct (push_pending_cases msgs p) as [[-> _]|[-> Hnew]].
    + destruct (IH msgs) as (app & Heq & Hsub & Hbase & Hnd).
      exists app. repeat split; auto. now constructor.
    + destruct (IH (msgs ++ [p])) as (app & Heq & Hsub & Hbase & Hnd).
      exists (p :: app). repeat split.
      * rewrite Heq, <- app_assoc. reflexivity.
      * now constructor.
      * intros q m [<-|Hq] Hm; [now apply Hnew|].
        apply (Hbase q m Hq). apply in_or_app. now left.
      * simpl. constructor; [|assumption].
        intros Hin. apply in_map_iff in Hin as (q & Hk & Hq).
        apply (Hbase q p Hq); [|congruence].
        apply in_or_app. right. now left.
Qed.

(** Every pending entry is represented in what the loop returns. *)
Lemma fold_push_pending_complete (pending : list DisplayMessage.t) :
  forall msgs p, In p pending ->
    exists m, In m (fold_left push_pending pending msgs) /\ key m = key p.
Proof.
  assert (Hmono : forall (l : list DisplayMessage.t) msgs m,
             In m msgs -> In m (fold_left push_pending l msgs)).
  { induction l as [|q l IHl]; intros msgs m Hm; simpl; [assumption|].
    apply IHl. destruct (push_pending_cases msgs q) as [[-> _]|[-> _]];
      [assumption | apply in_or_app; now left]. }
  induction pending as [|q pending IH]; intros msgs p []; simpl.
  - subst q. destruct (push_pending_cases msgs p) as [[-> (m & Hm & Hk)]|[-> _]].
    + exists m. split; [now apply Hmono | assumption].
    + exists p. split; [|reflexivity]. apply Hmono, in_or_app. right. now left.
  - now apply IH.
Qed.

Lemma push_streaming_app (msgs : list DisplayMessage.t) (sc : string) :
  push_streaming msgs sc = msgs ++ (if truthy sc then [streaming_entry sc] else []).
Proof. unfold push_streaming. destruct (truthy sc); [reflexivity | now rewrite app_nil_r]. Qed.

(** C1: the merged view is the base list (the confirmed rows, when signed
    in with a thread open), then the pending entries the loop appended,
    then the streaming entry.  No appended pending entry has the key
    (thread_id, role, content) of a base entry, so no key is shown both
    as confirmed and as pending, and no two appended entries share a key;
    a turn of the loop appends its entry only when no entry of the list
    built so far has that key. *)
Theorem view_has_no_pending_confirmed_duplicate (isAuthenticated : bool)
    (guest : list GuestMessage.t) (db : list Message.t) (active : option Z)
    (pending : list DisplayMessage.t) (sc : string) :
  exists appended,
    allMessages isAuthenticated guest db active pending sc
    = baseMessages isAuthenticated guest db active ++ appended
      ++ (if truthy sc then [streaming_entry sc] else [])
    /\ appended `sublist_of` pending
    /\ (forall p m, In p appended ->
                    In m (baseMessages isAuthenticated guest db active) ->
                    key m <> key p)
    /\ List.NoDup (map key appended)
    /\ (forall msgs p,
          push_pending msgs p = msgs
          \/ (push_pending msgs p = msgs ++ [p]
              /\ forall m, In m msgs -> key m <> key p)).
Proof.
  destruct (fold_push_pending pending (baseMessages isAuthenticated guest db active))
    as (app & Heq & Hsub & Hbase & Hnd).
  exists app. repeat split; auto.
  - unfold allMessages. rewrite push_streaming_app, Heq, <- app_assoc. reflexivity.
  - intros msgs p. destruct (push_pending_cases msgs p) as [[? _]|?]; auto.
Qed.

(** ** The live query is sorted *)

Lemma insert_cmp_In {A : Type} (cmp : A -> A -> Z) (x y : A) (l : list A) :
  In y (insert_cmp cmp x l) <-> y = x \/ In y l.
Proof.
  induction l as [|z l IH]; simpl.
  - intuition congruence.
  - destruct (Z.leb (cmp x z) 0); simpl; [intuition congruence|].
    rewrite IH. intuition congruence.
Qed.

Lemma sort_cmp_In {A : Type} (cmp : A -> A -> Z) (y : A) (l : list A) :
  In y (sort_cmp cmp l) <-> In y l.
Proof.
  induction l as [|x l IH]; simpl; [reflexivity|].
  rewrite insert_cmp_In, IH. intuition congruence.
Qed.

Section OrderBy.
Context {A : Type} (k : A -> Z).

Lemma insert_by_key_sorted (x : A) (l : list A) :
  StronglySorted (by_key k) l ->
  StronglySorted (by_key k) (insert_cmp (fun a b => (k a - k b)%Z) x l).
Proof.
  induction 1 as [|y l Hs IH Hall]; simpl.
  - repeat constructor.
  - destruct (Z.leb_spec (k x - k y) 0) as [Hle|Hgt].
    + constructor; [now constructor|].
      constructor; [unfold by_key; lia|].
      eapply List.Forall_impl; [|exact Hall]. unfold by_key. intros; lia.
    + constructor; [assumption|].
      apply List.Forall_forall. intros z Hz.
      apply insert_cmp_In in Hz as [->|Hz].
      * unfold by_key. lia.
      * now apply (proj1 (List.Forall_forall _ _) Hall).
Qed.

Lemma orderBy_sorted (l : list A) : StronglySorted (by_key k) (orderBy k l).
Proof.
  unfold orderBy. induction l as [|x l IH]; simpl.
  - constructor.
  - now apply insert_by_key_sorted.
Qed.

End OrderBy.

Lemma insert_cmp_perm {A : Type} (cmp : A -> A -> Z) (x : A) (l : list A) :
  insert_cmp cmp x l ≡ₚ x :: l.
Proof.
  induction l as [|y l IH]; simpl; [reflexivity|].
  destruct (Z.leb (cmp x y) 0); [reflexivity|].
  rewrite IH. apply Permutation_swap.
Qed.

Lemma sort_cmp_perm {A : Type} (cmp : A -> A -> Z) (l : list A) :
  sort_cmp cmp l ≡ₚ l.
Proof.
  induction l as [|x l IH]; simpl; [reflexivity|].
  rewrite insert_cmp_perm. now rewrite IH.
Qed.

Lemma filter_perm {A : Type} (f : A -> bool) (l l' : list A) :
  l ≡ₚ l' -> List.filter f l ≡ₚ List.filter f l'.
Proof.
  induction 1 as [|x l l' _ IH|x y l|l1 l2 l3 _ IH1 _ IH2]; simpl.
  - reflexivity.
  - destruct (f x); [now rewrite IH | assumption].
  - destruct (f x), (f y); try reflexivity. apply Permutation_swap.
  - now rewrite IH1.
Qed.


Lemma dbMessages_query_In (isAuthenticated : bool) (active : option Z)
    (rows : list Message.t) (m : Message.t) :
  In m (dbMessages_query isAuthenticated active rows) <->
  In m rows /\
  Message.thread_id m = (if isAuthenticated then default (-1)%Z active else (-1)%Z).
Proof.
  unfold dbMessages_query, where_, orderBy.
  destruct isAuthenticated, active; simpl;
    rewrite filter_In, sort_cmp_In, Z.eqb_eq; reflexivity.
Qed.



(** ** The view over the store *)

Ltac unfold_store :=
  unfold mbind, mret, store_bind, store_ret, Store.bind, Store.ret,
    Store.read, Store.alloc, Store.push in *.

Lemma lookup_last_cell {A : Type} (s : list A) (x : A) : (s ++ [x]) !! length s = Some x.
Proof. now apply list_lookup_middle. Qed.

Lemma alter_last_cell {A : Type} (f : A -> A) (s : list A) (x : A) :
  alter f (length s) (s ++ [x]) = s ++ [f x].
Proof.
  replace (length s) with (length s + 0) by lia.
  now rewrite alter_app_r.
Qed.

Lemma push_pending_st_last (s0 : Store.t) (cur : list DisplayMessage.t)
    (p : DisplayMessage.t) :
  push_pending_st (length s0) p (s0 ++ [cur]) = (tt, s0 ++ [push_pending cur p]).
Proof.
  unfold push_pending_st, push_pending. unfold_store.
  rewrite lookup_last_cell. simpl.
  destruct (existsb (fun m => same_message m p) cur); simpl; [reflexivity|].
  now rewrite alter_last_cell.
Qed.

Lemma for_of_push_pending_last (ps : list DisplayMessage.t) :
  forall (s0 : Store.t) (cur : list DisplayMessage.t),
    Store.for_of ps (push_pending_st (length s0)) (s0 ++ [cur])
    = (tt, s0 ++ [fold_left push_pending ps cur]).
Proof.
  induction ps as [|p ps IH]; intros s0 cur; simpl; [reflexivity|].
  unfold Store.bind. rewrite push_pending_st_last. apply IH.
Qed.

(** One run of [allMessages_st] from a store that holds the three input
    arrays: the store grows at its end, by the guest copy or the empty
    literal when there is one, and by [msgs]. *)
Lemma allMessages_st_run (s : Store.t) (isAuthenticated : bool) (g d p : Store.loc)
    (active : option Z) (sc : string) :
  g < length s -> d < length s -> p < length s ->
  exists extra,
    allMessages_st isAuthenticated g d active p sc s
    = (length (s ++ extra),
       (s ++ extra)
       ++ [allMessages_of_arrays isAuthenticated (default [] (s !! g))
             (default [] (s !! d)) active (default [] (s !! p)) sc]).
Proof.
  intros Hg Hd Hp.
  assert (Htail : forall (s0 : Store.t) b,
            p < length s0 ->
            (let '(_, s1) :=
               Store.for_of (default [] ((s0 ++ [b]) !! p)) (push_pending_st (length s0))
                 (s0 ++ [b]) in
             let '(_, s2) :=
               (if truthy sc
                then fun s => (tt, alter (fun l => l ++ [streaming_entry sc]) (length s0) s)
                else fun s => (tt, s)) s1 in
             (length s0, s2))
            = (length s0,
               s0 ++ [push_streaming (fold_left push_pending (default [] (s0 !! p)) b) sc])).
  { intros s0 b Hp0. rewrite lookup_app_l by assumption.
    rewrite for_of_push_pending_last. unfold push_streaming.
    destruct (truthy sc); [|reflexivity]. now rewrite alter_last_cell. }
  unfold allMessages_of_arrays.
  cbv [allMessages_st mbind mret store_bind store_ret Store.bind Store.read
       Store.alloc Store.ret Store.push].
  destruct isAuthenticated; cbn [negb].
  - destruct active as [t|].
    + exists []. rewrite app_nil_r. apply Htail. assumption.
    + exists [[]]. rewrite lookup_last_cell. cbn [default].
      rewrite Htail by (rewrite length_app; simpl; lia).
      now rewrite lookup_app_l by assumption.
  - exists [map guest_fields (default [] (s !! g))].
    rewrite lookup_last_cell. cbn [default].
    rewrite Htail by (rewrite length_app; simpl; lia).
    now rewrite lookup_app_l by assumption.
Qed.

Lemma guest_fields_of_Guest (guest : list GuestMessage.t) :
  map guest_fields (map DisplayMessage.of_Guest guest) = map DisplayMessage.of_Guest guest.
Proof. rewrite List.map_map. apply List.map_ext. reflexivity. Qed.

(** On arrays that hold guest messages, rows and pending entries, the
    run computes [allMessages]. *)
Lemma allMessages_of_arrays_pure (isAuthenticated : bool) (guest : list GuestMessage.t)
    (db : list Message.t) (active : option Z) (pending : list DisplayMessage.t)
    (sc : string) :
  allMessages_of_arrays isAuthenticated (map DisplayMessage.of_Guest guest)
    (map DisplayMessage.of_Message db) active pending sc
  = allMessages isAuthenticated guest db active pending sc.
Proof.
  unfold allMessages_of_arrays, allMessages, baseMessages.
  now rewrite guest_fields_of_Guest.
Qed.

(** C5: computing the view twice in a row, from a store that holds the
    three input arrays, gives two arrays with the same elements in the
    same order.  The result is the function [allMessages] of the inputs
    alone; the runs leave every array that existed before untouched
    (the pushes go to a fresh copy), and the second run does not touch
    the result of the first. *)
Theorem allMessages_twice_equal (s : Store.t) (isAuthenticated : bool)
    (g d p : Store.loc) (active : option Z) (sc : string) :
  g < length s -> d < length s -> p < length s ->
  let run1 := allMessages_st isAuthenticated g d active p sc s in
  let run2 := allMessages_st isAuthenticated g d active p sc (snd run1) in
  result_of run1 = result_of run2
  /\ (forall l, l < length s -> snd run1 !! l = s !! l /\ snd run2 !! l = s !! l)
  /\ snd run2 !! fst run1 = snd run1 !! fst run1
  /\ (forall guest db pending,
        s !! g = Some (map DisplayMessage.of_Guest guest) ->
        s !! d = Some (map DisplayMessage.of_Message db) ->
        s !! p = Some pending ->
        result_of run1 = allMessages isAuthenticated guest db active pending sc).
Proof.
  intros Hg Hd Hp run1 run2.
  destruct (allMessages_st_run s isAuthenticated g d p active sc Hg Hd Hp)
    as (e1 & Hrun1).
  set (v := allMessages_of_arrays isAuthenticated (default [] (s !! g))
              (default [] (s !! d)) active (default [] (s !! p)) sc) in *.
  set (s1 := (s ++ e1) ++ [v]) in *.
  assert (Hlen : length s <= length (s ++ e1)) by (rewrite length_app; lia).
  assert (Hold : forall l, l < length s -> s1 !! l = s !! l).
  { intros l Hl. unfold s1. rewrite !lookup_app_l; [reflexivity | lia | lia]. }
  assert (Hlen1 : length s < length s1).
  { unfold s1. rewrite length_app. simpl. lia. }
  destruct (allMessages_st_run s1 isAuthenticated g d p active sc
              ltac:(lia) ltac:(lia) ltac:(lia)) as (e2 & Hrun2).
  rewrite !Hold in Hrun2 by assumption. fold v in Hrun2.
  assert (E1 : run1 = (length (s ++ e1), s1)) by exact Hrun1.
  assert (E2 : run2 = (length (s1 ++ e2), (s1 ++ e2) ++ [v])).
  { unfold run2. rewrite E1. exact Hrun2. }
  rewrite E1, E2. unfold result_of. cbn [fst snd].
  assert (R1 : s1 !! length (s ++ e1) = Some v) by apply lookup_last_cell.
  repeat split.
  - now rewrite R1, lookup_last_cell.
  - now apply Hold.
  - rewrite <- app_assoc, lookup_app_l by lia. now apply Hold.
  - rewrite <- app_assoc. apply lookup_app_l. unfold s1. rewrite !length_app.
    cbn [length]. lia.
  - intros guest db pending Eg Ed Ep. rewrite R1. simpl. unfold v.
    rewrite Eg, Ed, Ep. simpl. apply allMessages_of_arrays_pure.
Qed.

Lemma allMessages_twice_equal_witness :
  result_of (allMessages_st true 0 1 (Some 7%Z) 2 "Hi" Scenario.store0)
  = result_of (allMessages_st true 0 1 (Some 7%Z) 2 "Hi"
                 (snd (allMessages_st true 0 1 (Some 7%Z) 2 "Hi" Scenario.store0))).
Proof.
  apply (allMessages_twice_equal Scenario.store0 true 0 1 2 (Some 7%Z) "Hi");
    simpl; lia.
Defined.

(** ** The submit handler *)

Ltac unfold_M :=
  cbv [mbind mret M_mbind M_mret M_bind M_ret throw try_catch try_finally modify
       setInput setIsLoading setStreamingContent setGuestMessages setFreeRequestsUsed
       setShowAuthPrompt setActiveThreadId setPendingMessages set_free_request_item
       log_request console_error on_chat_error
       input isLoading streamingContent guestMessages freeRequestsUsed showAuthPrompt
       activeThreadId pendingMessages free_request_item requests console].

(** C9: for a guest whose used-request count has reached
    [FREE_REQUEST_LIMIT], which is 1, [handleSend] returns without
    appending a guest message and without a [fetch]; when the attempt
    passes the entry guard (text to send, no send in flight) the sign-in
    prompt is shown. *)
Theorem guest_limit_blocks_send (trim : string -> string) (new_Date : string -> Date)
    (net : Request -> FetchOutcome) (now later : Z) (db : list Message.t)
    (model : string) (w : World) :
  (FREE_REQUEST_LIMIT <= freeRequestsUsed w)%Z ->
  let r := handleSend trim new_Date net now later false db model w in
  FREE_REQUEST_LIMIT = 1%Z
  /\ fst r = Ok tt
  /\ guestMessages (snd r) = guestMessages w
  /\ requests (snd r) = requests w
  /\ free_request_item (snd r) = free_request_item w
  /\ (truthy (trim (input w)) = true -> isLoading w = false ->
      showAuthPrompt (snd r) = true /\ isLoading (snd r) = false).
Proof.
  intros Hlimit r. subst r. unfold handleSend.
  apply Z.leb_le in Hlimit. rewrite Hlimit.
  destruct (truthy (trim (input w))), (isLoading w); simpl;
    repeat split; congruence.
Qed.

Lemma guest_limit_blocks_send_witness :
  (FREE_REQUEST_LIMIT <= freeRequestsUsed Scenario.guest_used)%Z
  /\ showAuthPrompt
       (snd (handleSend ascii_trim Scenario.new_Date0 (Scenario.net_status 200) 5 9 false []
               "openai/gpt-4o" Scenario.guest_used)) = true
  /\ requests
       (snd (handleSend ascii_trim Scenario.new_Date0 (Scenario.net_status 200) 5 9 false []
               "openai/gpt-4o" Scenario.guest_used)) = [].
Proof.
  assert (H : (FREE_REQUEST_LIMIT <= freeRequestsUsed Scenario.guest_used)%Z)
    by (vm_compute; discriminate).
  split; [exact H|].
  destruct (guest_limit_blocks_send ascii_trim Scenario.new_Date0 (Scenario.net_status 200)
              5 9 [] "openai/gpt-4o" Scenario.guest_used H) as (_ & _ & _ & Hreq & _ & Hprompt).
  split.
  - apply Hprompt; reflexivity.
  - exact Hreq.
Defined.

(** ** The mutation calls *)

Lemma fetch_run (net : Request -> FetchOutcome) (req : Request) (w : World) :
  fetch net req w
  = (match net req with
     | Rejected => Throw NetworkFailure
     | Responded res => Ok res
     end, snd (log_request req w)).
Proof. unfold fetch. unfold_M. destruct (net req); reflexivity. Qed.

Lemma M_bind_run {A B : Type} (m : M A) (k : A -> M B) (w : World) :
  (m ≫= k) w
  = match m w with
    | (Ok x, w') => k x w'
    | (Throw e, w') => (Throw e, w')
    end.
Proof. reflexivity. Qed.

(** C8, as stated, fails: the answer to a request without a session (401)
    and the answer of a failing server (500) make [createThread] throw
    the same exception, and so for [addMessage]; the caller cannot tell
    the two failures apart. *)
Lemma mutation_failures_look_alike :
  fst (createThread Scenario.new_Date0 (Scenario.net_status 401) 0 (Some "Hello")
         Scenario.signed_in)
  = fst (createThread Scenario.new_Date0 (Scenario.net_status 500) 0 (Some "Hello")
           Scenario.signed_in)
  /\ fst (addMessage Scenario.new_Date0 (Scenario.net_status 401) 0 7 "user" "Hello"
            Scenario.signed_in)
     = fst (addMessage Scenario.new_Date0 (Scenario.net_status 500) 0 7 "user" "Hello"
              Scenario.signed_in).
Proof. split; reflexivity. Qed.

(** C8, amended: [createThread] and [addMessage] send exactly one request
    each, whatever the outcome (no retry).  On an ok response that
    carries the created row they return it, with [created_at] as a
    [Date]; on every response that is not ok, whatever its status, they
    throw one and the same [Error] ("Failed to create chat", "Failed to
    add message"); when [fetch] itself rejects, the rejection
    propagates. *)
Theorem mutation_outcomes (new_Date : string -> Date) (net : Request -> FetchOutcome)
    (now : Z) (title : option string) (threadId : Z) (role content : string)
    (w : World) :
  let req1 := mkRequest "/api/chat/mutations" true
                (CreateThreadBody (default "New chat" title)) in
  let r1 := createThread new_Date net now title w in
  let req2 := mkRequest "/api/chat/mutations" true
                (AddMessageBody threadId role content) in
  let r2 := addMessage new_Date net now threadId role content w in
  (requests (snd r1) = requests w ++ [req1]
   /\ (net req1 = Rejected -> fst r1 = Throw NetworkFailure)
   /\ (forall res, net req1 = Responded res -> ok res = false ->
         fst r1 = Throw (Error "Failed to create chat"))
   /\ (forall res i t c, net req1 = Responded res -> ok res = true ->
         json res = JThread i t c ->
         fst r1 = Ok (Thread.mk i t (date_or_now new_Date now c))))
  /\ (requests (snd r2) = requests w ++ [req2]
      /\ (net req2 = Rejected -> fst r2 = Throw NetworkFailure)
      /\ (forall res, net req2 = Responded res -> ok res = false ->
            fst r2 = Throw (Error "Failed to add message"))
      /\ (forall res i t ro co c, net req2 = Responded res -> ok res = true ->
            json res = JMessage i t ro co c ->
            fst r2 = Ok (Message.mk i t ro co (date_or_now new_Date now c)))).
Proof.
  intros req1 r1 req2 r2. split.
  - subst r1. unfold createThread. fold req1. rewrite M_bind_run, fetch_run.
    destruct (net req1) as [|res].
    { simpl. repeat split; intros; congruence. }
    destruct (ok res) eqn:Hok; simpl.
    + destruct (json res) eqn:Hj; simpl; repeat split; intros; try congruence.
    + repeat split; intros; try congruence.
  - subst r2. unfold addMessage. fold req2. rewrite M_bind_run, fetch_run.
    destruct (net req2) as [|res].
    { simpl. repeat split; intros; congruence. }
    destruct (ok res) eqn:Hok; simpl.
    + destruct (json res) eqn:Hj; simpl; repeat split; intros; try congruence.
    + repeat split; intros; try congruence.
Qed.

(** The amended C8 at a server that creates thread 9 and stores message
    101. *)
Lemma mutation_outcomes_witness :
  fst (createThread Scenario.new_Date0 Scenario.net_created 5 None Scenario.signed_in)
  = Ok (Thread.mk 9 "New chat" 5%Z).
Proof.
  destruct (mutation_outcomes Scenario.new_Date0 Scenario.net_created 5 None 7 "user"
              "Hello" Scenario.signed_in) as [(_ & _ & _ & Hok) _].
  apply (Hok (mkResponse 200 (JThread 9 "New chat" None) None) 9%Z "New chat" None);
    reflexivity.
Defined.

(** ** A stream that breaks *)

Lemma read_stream_aborted (chunks : list string) :
  forall (acc : string) (w : World),
    exists v, read_stream chunks Aborted acc w
              = (Throw BodyRejected, snd (setStreamingContent v w)).
Proof.
  induction chunks as [|c chunks IH]; intros acc w; simpl.
  - exists (streamingContent w). unfold_M. destruct w; reflexivity.
  - rewrite M_bind_run.
    destruct (IH (acc ++ c)%string (snd (setStreamingContent (acc ++ c) w))) as (v & Hv).
    exists v.
    change (setStreamingContent (acc ++ c) w)
      with (Ok tt, snd (setStreamingContent (acc ++ c) w)).
    cbv beta iota. rewrite Hv. reflexivity.
Qed.

Lemma read_response_aborted (res : Response) (s : Stream) (w : World) :
  ok res = true -> stream res = Some s -> stream_end s = Aborted ->
  exists v, read_response res w = (Throw BodyRejected, snd (setStreamingContent v w)).
Proof.
  intros Hok Hs He. unfold read_response. rewrite Hok, Hs, He. simpl.
  apply read_stream_aborted.
Qed.


(** ** Guests *)

Lemma guest_messages_have_no_thread (guest : list GuestMessage.t)
    (p : DisplayMessage.t) (t : Z) :
  DisplayMessage.thread_id p = Some t ->
  existsb (fun m => same_message m p) (map DisplayMessage.of_Guest guest) = false.
Proof.
  intros Ht. induction guest as [|g guest IH]; cbn [map existsb]; [reflexivity|].
  rewrite IH. unfold same_message. cbn [DisplayMessage.of_Guest DisplayMessage.thread_id].
  rewrite Ht. cbn [strict_eq_opt]. now rewrite andb_false_r.
Qed.

Lemma guest_query_is_pinned (active : option Z) (rows : list Message.t) :
  Forall (fun m => Message.thread_id m = (-1)%Z) (dbMessages_query false active rows).
Proof.
  apply List.Forall_forall. intros m Hm.
  apply dbMessages_query_In in Hm as [_ Ht]. exact Ht.
Qed.

(** C4: the guest view can show a message of a signed-in user's thread.
    A signed-in user sends "Hello" in thread 7 and the message is not
    stored; the session ends.  For the guest the thread list is empty,
    the selection effect closes the thread and the live query keeps
    only rows with [thread_id = -1], whatever the replica holds; but
    the pending buffer still holds the entry of thread 7, the reconcile
    effect does not remove it, and the view shows it.  In general the
    guest view shows any buffer entry that carries a thread, after the
    guest's own messages. *)
Theorem guest_view_shows_pending_thread_message (threads : list Thread.t)
    (rows : list Message.t) (guest : list GuestMessage.t) (active : option Z)
    (sc : string) (i t : Z) (r c : string) (ca : option Date) :
  let sent :=
    snd (handleSend ascii_trim Scenario.new_Date0 Example.net_no_add 5 9 true []
           "openai/gpt-4o" Scenario.signed_in) in
  let closed :=
    snd (setActiveThreadId
           (select_thread false (sortedThreads false threads) (activeThreadId sent))
           sent) in
  let db := dbMessages_query false (activeThreadId closed) rows in
  let w := replica_update db closed in
  let hello := DisplayMessage.mk 5 "user" "Hello" (Some 7%Z) (Some 5%Z) in
  let p := DisplayMessage.mk i r c (Some t) ca in
  sortedThreads false threads = []
  /\ activeThreadId w = None
  /\ Forall (fun m => Message.thread_id m = (-1)%Z) db
  /\ guestMessages w = []
  /\ pendingMessages w = [hello]
  /\ view false db w = [hello]
  /\ allMessages false guest rows active [p] sc
     = map DisplayMessage.of_Guest guest ++ [p]
       ++ (if truthy sc then [streaming_entry sc] else []).
Proof.
  intros sent closed db w hello p.
  assert (Hpend : pendingMessages sent = [hello]) by (vm_compute; reflexivity).
  assert (Hguest : guestMessages sent = []) by (vm_compute; reflexivity).
  assert (Hsc : streamingContent sent = ""%string) by (vm_compute; reflexivity).
  assert (Hdb : Forall (fun m => Message.thread_id m = (-1)%Z) db)
    by apply guest_query_is_pinned.
  assert (Hkeep : reconcile db [hello] = [hello]).
  { rewrite reconcile_filter. cbn [List.filter].
    assert (Hs : isSynced db hello = false).
    { apply isSynced_false. intros m Hm Hk.
      apply (proj1 (List.Forall_forall _ _) Hdb) in Hm.
      unfold key in Hk. cbn in Hk. rewrite Hm in Hk. discriminate. }
    now rewrite Hs. }
  split; [reflexivity|]. split; [reflexivity|]. split; [exact Hdb|].
  split; [exact Hguest|].
  assert (Hw : pendingMessages w = [hello]).
  { unfold w, replica_update. cbn [pendingMessages].
    change (pendingMessages closed) with (pendingMessages sent).
    now rewrite Hpend. }
  split; [exact Hw|]. split.
  - unfold view. rewrite Hw.
    change (guestMessages w) with (guestMessages sent).
    change (streamingContent w) with (streamingContent sent).
    rewrite Hguest, Hsc. reflexivity.
  - unfold allMessages, baseMessages. cbn [negb fold_left].
    rewrite push_streaming_app. unfold push_pending.
    rewrite (guest_messages_have_no_thread guest p t eq_refl). cbn [negb].
    now rewrite <- app_assoc.
Qed.

(** * Further properties of the page *)

(** ** Reconciliation composes *)

Lemma isSynced_app (db1 db2 : list Message.t) (p : DisplayMessage.t) :
  isSynced (db1 ++ db2) p = isSynced db1 p || isSynced db2 p.
Proof. unfold isSynced. apply existsb_app. Qed.

Lemma filter_negb_orb {A : Type} (f g : A -> bool) (l : list A) :
  List.filter (fun x => negb (f x || g x)) l
  = List.filter (fun x => negb (g x)) (List.filter (fun x => negb (f x)) l).
Proof.
  induction l as [|x l IH]; simpl; [reflexivity|].
  destruct (f x); simpl; [exact IH|].
  destruct (g x); simpl; [exact IH | now f_equal].
Qed.

(** X1: the reconcile effect settles in one pass.  The state it sets is
    one of its own dependencies, so it runs again; the second run
    leaves the page as the first one left it. *)
Theorem replica_update_settles (db : list Message.t) (w : World) :
  replica_update db (replica_update db w) = replica_update db w.
Proof.
  unfold replica_update.
  cbn [input isLoading streamingContent guestMessages freeRequestsUsed showAuthPrompt
       activeThreadId pendingMessages free_request_item requests console].
  now rewrite reconcile_idempotent.
Qed.

(** X2: rows may arrive in several deliveries and in any order.
    Reconciling against two batches at once is reconciling against one
    and then the other, in either order; an empty replica removes
    nothing. *)
Theorem reconcile_deliveries_compose (db1 db2 : list Message.t)
    (pending : list DisplayMessage.t) :
  reconcile (db1 ++ db2) pending = reconcile db2 (reconcile db1 pending)
  /\ reconcile (db1 ++ db2) pending = reconcile (db2 ++ db1) pending
  /\ reconcile [] pending = pending.
Proof.
  rewrite !reconcile_filter.
  assert (Hcomp : forall d1 d2,
            List.filter (fun p => negb (isSynced (d1 ++ d2) p)) pending
            = List.filter (fun p => negb (isSynced d2 p))
                (List.filter (fun p => negb (isSynced d1 p)) pending)).
  { intros d1 d2. rewrite <- filter_negb_orb. apply List.filter_ext.
    intros p. now rewrite isSynced_app. }
  repeat split.
  - apply Hcomp.
  - apply List.filter_ext. intros p. rewrite !isSynced_app. now rewrite orb_comm.
  - apply filter_all_true. apply List.Forall_forall. reflexivity.
Qed.

(** X3: an entry added to the buffer does not disturb the ones before
    it: reconciling a buffer built from two parts is reconciling each
    part, and a new entry survives the pass exactly when no row has its
    key. *)
Theorem reconcile_buffer_append (db : list Message.t)
    (pending1 pending2 : list DisplayMessage.t) (p : DisplayMessage.t) :
  reconcile db (pending1 ++ pending2) = reconcile db pending1 ++ reconcile db pending2
  /\ reconcile db (pending1 ++ [p])
     = reconcile db pending1 ++ (if isSynced db p then [] else [p]).
Proof.
  rewrite !reconcile_filter. split.
  - apply List.filter_app.
  - rewrite List.filter_app. simpl. now destruct (isSynced db p).
Qed.

(** ** The view and the reconcile pass *)

Lemma push_pending_keeps (msgs : list DisplayMessage.t) (p m : DisplayMessage.t) :
  In m msgs -> In m (push_pending msgs p).
Proof.
  intros Hm. destruct (push_pending_cases msgs p) as [[-> _]|[-> _]];
    [assumption | apply in_or_app; now left].
Qed.

Lemma fold_push_pending_skips_synced (db : list Message.t)
    (pending : list DisplayMessage.t) :
  forall msgs,
    (forall m, In m db -> In (DisplayMessage.of_Message m) msgs) ->
    fold_left push_pending (List.filter (fun p => negb (isSynced db p)) pending) msgs
    = fold_left push_pending pending msgs.
Proof.
  induction pending as [|p pending IH]; intros msgs Hbase; simpl; [reflexivity|].
  destruct (isSynced db p) eqn:Hs; simpl.
  - apply isSynced_true in Hs as (m & Hm & Hk).
    destruct (push_pending_cases msgs p) as [[-> _]|[_ Hnew]].
    + now apply IH.
    + destruct (Hnew (DisplayMessage.of_Message m) (Hbase m Hm) Hk).
  - apply IH. intros m Hm. now apply push_pending_keeps, Hbase.
Qed.

(** X4: with a thread open, the reconcile pass does not change what is
    shown: the entries it removes from the buffer are those the view was
    already showing as confirmed rows. *)
Theorem view_unchanged_by_reconcile (guest : list GuestMessage.t) (db : list Message.t)
    (t : Z) (pending : list DisplayMessage.t) (sc : string) :
  allMessages true guest db (Some t) (reconcile db pending) sc
  = allMessages true guest db (Some t) pending sc.
Proof.
  unfold allMessages, baseMessages. cbn [negb].
  rewrite reconcile_filter, fold_push_pending_skips_synced; [reflexivity|].
  intros m Hm. now apply in_map.
Qed.

(** X5: nothing is missing from the view.  Every base entry is shown,
    and every pending entry is represented by an entry with its key
    (thread_id, role, content), in every state. *)
Theorem view_shows_every_message (isAuthenticated : bool) (guest : list GuestMessage.t)
    (db : list Message.t) (active : option Z) (pending : list DisplayMessage.t)
    (sc : string) :
  Forall (fun m => In m (allMessages isAuthenticated guest db active pending sc))
    (baseMessages isAuthenticated guest db active)
  /\ Forall (fun p => exists m,
               In m (allMessages isAuthenticated guest db active pending sc)
               /\ key m = key p) pending.
Proof.
  unfold allMessages. rewrite push_streaming_app. split.
  - apply List.Forall_forall. intros m Hm. apply in_or_app. left.
    destruct (fold_push_pending pending
                (baseMessages isAuthenticated guest db active)) as (app & -> & _).
    apply in_or_app. now left.
  - apply List.Forall_forall. intros p Hp.
    destruct (fold_push_pending_complete pending
                (baseMessages isAuthenticated guest db active) p Hp) as (m & Hm & Hk).
    exists m. split; [|assumption]. apply in_or_app. now left.
Qed.

(** ** The live query and the thread list *)

(** X6: the live query of an open thread holds the rows of that thread,
    each as often as the collection holds it, and no row of another
    thread: switching the thread leaves nothing of the previous one. *)
Theorem dbMessages_query_selects_thread (rows : list Message.t) (t : Z) :
  dbMessages_query true (Some t) rows
    ≡ₚ List.filter (fun m => Z.eqb (Message.thread_id m) t) rows
  /\ (forall t', t' <> t ->
        Forall (fun m => ~ In m (dbMessages_query true (Some t') rows))
          (dbMessages_query true (Some t) rows)).
Proof.
  split.
  - unfold dbMessages_query, where_, orderBy. apply filter_perm, sort_cmp_perm.
  - intros t' Ht. apply List.Forall_forall. intros m Hm Hm'.
    apply dbMessages_query_In in Hm as [_ H1].
    apply dbMessages_query_In in Hm' as [_ H2].
    simpl in H1, H2. congruence.
Qed.

Lemma insert_cmp_ext {A : Type} (cmp cmp' : A -> A -> Z) (x : A) (l : list A) :
  (forall a b, cmp a b = cmp' a b) -> insert_cmp cmp x l = insert_cmp cmp' x l.
Proof.
  intros He. induction l as [|y l IH]; simpl; [reflexivity|].
  now rewrite He, IH.
Qed.

Lemma sort_cmp_ext {A : Type} (cmp cmp' : A -> A -> Z) (l : list A) :
  (forall a b, cmp a b = cmp' a b) -> sort_cmp cmp l = sort_cmp cmp' l.
Proof.
  intros He. induction l as [|x l IH]; simpl; [reflexivity|].
  rewrite IH. now apply insert_cmp_ext.
Qed.

Lemma sortedThreads_descending (threads : list Thread.t) :
  StronglySorted (fun a b => (Thread.id b <= Thread.id a)%Z) (sortedThreads true threads).
Proof.
  unfold sortedThreads.
  rewrite (sort_cmp_ext _ (fun a b => (- Thread.id a - - Thread.id b)%Z))
    by (intros; lia).
  pose proof (orderBy_sorted (fun th => (- Thread.id th)%Z) threads) as Hs.
  unfold orderBy in Hs.
  induction Hs as [|x l _ IH Hall]; constructor; [assumption|].
  eapply List.Forall_impl; [|exact Hall]. unfold by_key. intros; lia.
Qed.

(** X7: the thread list of a signed-in user is the synced threads, none
    lost and none twice, newest id first; a guest gets no thread. *)
Theorem sortedThreads_newest_first (threads : list Thread.t) :
  sortedThreads true threads ≡ₚ threads
  /\ StronglySorted (fun a b => (Thread.id b <= Thread.id a)%Z) (sortedThreads true threads)
  /\ sortedThreads false threads = [].
Proof.
  split; [apply sort_cmp_perm|]. split; [apply sortedThreads_descending | reflexivity].
Qed.

(** X8: the selection effect.  For a signed-in user with no thread open
    and at least one synced thread it opens the thread with the largest
    id; it never replaces a thread that is open; for a guest it closes
    whatever was open; and running it again changes nothing. *)
Theorem select_thread_opens_newest (first : Thread.t) (others sorted : list Thread.t)
    (isAuthenticated : bool) (active : option Z) (t : Z) :
  (exists newest,
      In newest (first :: others)
      /\ Forall (fun th => (Thread.id th <= Thread.id newest)%Z) (first :: others)
      /\ select_thread true (sortedThreads true (first :: others)) None
         = Some (Thread.id newest))
  /\ select_thread true sorted (Some t) = Some t
  /\ select_thread true [] active = active
  /\ select_thread false sorted active = None
  /\ select_thread isAuthenticated sorted (select_thread isAuthenticated sorted active)
     = select_thread isAuthenticated sorted active.
Proof.
  repeat split.
  - pose proof (sort_cmp_perm (fun a b => (Thread.id b - Thread.id a)%Z) (first :: others))
      as Hperm.
    pose proof (sortedThreads_descending (first :: others)) as Hsorted.
    unfold sortedThreads in *.
    destruct (sort_cmp (fun a b => (Thread.id b - Thread.id a)%Z) (first :: others))
      as [|newest rest] eqn:Hs.
    { apply Permutation_nil_l in Hperm. discriminate. }
    exists newest. repeat split.
    + apply list_elem_of_In. rewrite <- Hperm. left.
    + apply List.Forall_forall. intros th Hth.
      apply list_elem_of_In in Hth. rewrite <- Hperm in Hth.
      apply elem_of_cons in Hth as [->|Hth]; [lia|].
      inversion Hsorted as [|? ? _ Hall]; subst.
      apply list_elem_of_In in Hth.
      now apply (proj1 (List.Forall_forall _ _) Hall).
  - destruct active; reflexivity.
  - destruct isAuthenticated; [|reflexivity].
    destruct active as [a|], sorted as [|th sorted']; reflexivity.
Qed.

(** ** Reading the completion stream *)

Lemma string_app_assoc (a b c : string) :
  ((a ++ b) ++ c)%string = (a ++ (b ++ c))%string.
Proof.
  induction a as [|x a IH]; [reflexivity|].
  change (String x ((a ++ b) ++ c)%string = String x (a ++ (b ++ c))%string).
  now rewrite IH.
Qed.

Lemma string_app_nil_r (a : string) : (a ++ "")%string = a.
Proof.
  induction a as [|x a IH]; [reflexivity|].
  change (String x (a ++ "")%string = String x a). now rewrite IH.
Qed.

(** What [read_stream] returns and what it leaves published. *)
Lemma read_stream_run (cs : list string) (e : StreamEnd) :
  forall (acc : string) (w : World),
    read_stream cs e acc w
    = (match e with
       | Closed => Ok (acc ++ fold_right String.append "" cs)%string
       | Aborted => Throw BodyRejected
       end,
       match cs with
       | [] => w
       | _ :: _ =>
           snd (setStreamingContent (acc ++ fold_right String.append "" cs)%string w)
       end).
Proof.
  induction cs as [|c cs IH]; intros acc w.
  - cbn [read_stream fold_right]. rewrite string_app_nil_r. now destruct e.
  - cbn [read_stream fold_right]. rewrite M_bind_run.
    change (setStreamingContent (acc ++ c) w)
      with (Ok tt, snd (setStreamingContent (acc ++ c) w)).
    cbv beta iota. rewrite IH, string_app_assoc.
    destruct cs as [|c' cs']; [|reflexivity].
    cbn [fold_right]. now rewrite string_app_nil_r.
Qed.

(** X9: the stream is read incrementally.  A closed stream returns the
    chunks joined in order after what was accumulated before; reading
    the first chunks of a stream leaves published exactly what has
    arrived so far, which is what the rest of the stream continues
    from; nothing but the streaming content changes. *)
Theorem read_stream_publishes_prefixes (first : string) (cs1 cs2 : list string)
    (acc : string) (w : World) :
  let arrived := (acc ++ fold_right String.append "" (first :: cs1))%string in
  fst (read_stream ((first :: cs1) ++ cs2) Closed acc w)
  = Ok (arrived ++ fold_right String.append "" cs2)%string
  /\ read_stream (first :: cs1) Closed acc w
     = (Ok arrived, snd (setStreamingContent arrived w))
  /\ read_stream ((first :: cs1) ++ cs2) Closed acc w
     = read_stream cs2 Closed arrived (snd (read_stream (first :: cs1) Closed acc w))
  /\ read_stream ((first :: cs1) ++ cs2) Aborted acc w
     = read_stream cs2 Aborted arrived (snd (read_stream (first :: cs1) Closed acc w)).
Proof.
  intros arrived.
  assert (Hjoin : forall l1 l2 : list string,
            fold_right String.append ""%string (l1 ++ l2)
            = (fold_right String.append "" l1 ++ fold_right String.append "" l2)%string).
  { induction l1 as [|x l1 IH]; intros l2; [reflexivity|].
    cbn [app fold_right]. now rewrite IH, string_app_assoc. }
  rewrite !read_stream_run. cbn [fst snd].
  rewrite Hjoin, <- string_app_assoc. fold arrived.
  repeat split.
  - destruct cs2; [|reflexivity]. cbn [fold_right]. now rewrite string_app_nil_r.
  - destruct cs2; [|reflexivity]. cbn [fold_right]. now rewrite string_app_nil_r.
Qed.

(** ** What every run of the submit handler keeps *)

(** One case split on what the network answered, in the order in which
    the handler looks at the answers. *)
Ltac hs_step net :=
  first
    [ match goal with
      | |- context [read_stream ?cs ?e ?acc ?W] =>
          rewrite (read_stream_run cs e acc W); destruct e, cs
      end
    | match goal with H : Z.eqb ?a ?b = _ |- context [Z.eqb ?a ?b] => rewrite H end
    | match goal with |- context [if ?b then _ else _] => is_var b; destruct b end
    | match goal with |- context [ok ?r] => destruct (ok r) eqn:? end
    | match goal with |- context [json ?r] => destruct (json r) eqn:? end
    | match goal with |- context [stream ?r] => destruct (stream r) eqn:? end
    | match goal with |- context [truthy ?s] => destruct (truthy s) eqn:? end
    | match goal with |- context [Z.leb ?a ?b] => destruct (Z.leb a b) eqn:? end
    | match goal with
      | |- context [net (mkRequest ?u ?c (CreateThreadBody ?t))] =>
          destruct (net (mkRequest u c (CreateThreadBody t))) eqn:?
      end
    | match goal with
      | |- context [net (mkRequest ?u ?c (AddMessageBody ?t ?r ?x))] =>
          destruct (net (mkRequest u c (AddMessageBody t r x))) eqn:?
      end
    | match goal with |- context [net ?r] => destruct (net r) eqn:? end ];
  cbv beta iota; unfold_M; cbn [negb orb andb].

(** All the runs of [handleSend] from a given state, by cases: the
    entry guard first, then the answers of the network in the order the
    requests are made. *)
Ltac hs_cases trim net w :=
  destruct w as [inp ld sc0 gm fr sp act pm fi rq cn];
  unfold handleSend, guest_send, auth_send, createThread, addMessage, read_response, fetch;
  cbn [input isLoading activeThreadId guestMessages freeRequestsUsed showAuthPrompt
       pendingMessages free_request_item requests console streamingContent] in *;
  subst;
  unfold incrementFreeRequestCount, getFreeRequestCount;
  unfold_M; cbn [negb orb andb];
  destruct (truthy (trim inp)) eqn:?; destruct ld;
  cbn [negb orb andb]; cbv beta iota;
  repeat hs_step net.

Ltac hs_leaf :=
  cbn [fst snd input isLoading activeThreadId guestMessages freeRequestsUsed showAuthPrompt
       pendingMessages free_request_item requests console streamingContent negb andb];
  rewrite <- ?app_assoc; rewrite ?drop_app_length, ?drop_all;
  repeat split; intros; try discriminate; try reflexivity;
  try (apply prefix_app_r; reflexivity);
  try (rewrite ?length_app; cbn [length app]; lia);
  try (repeat (apply List.Forall_cons; [repeat split; (reflexivity || discriminate)|]);
       apply List.Forall_nil).

(** The frame of a run: what it resets, what it only appends to, and
    what each path leaves alone. *)
Lemma handleSend_frame (trim : string -> string) (new_Date : string -> Date)
    (net : Request -> FetchOutcome) (now later : Z) (isAuthenticated : bool)
    (db : list Message.t) (model : string) (w : World) :
  let r := handleSend trim new_Date net now later isAuthenticated db model w in
  fst r = Ok tt
  /\ (truthy (trim (input w)) && negb (isLoading w) = false -> snd r = w)
  /\ (truthy (trim (input w)) && negb (isLoading w) = true ->
      input (snd r) = EmptyString /\ isLoading (snd r) = false
      /\ streamingContent (snd r) = EmptyString)
  /\ (guestMessages w `prefix_of` guestMessages (snd r)
      /\ length (guestMessages (snd r)) <= length (guestMessages w) + 2)
  /\ (pendingMessages w `prefix_of` pendingMessages (snd r)
      /\ length (pendingMessages (snd r)) <= length (pendingMessages w) + 2)
  /\ (requests w `prefix_of` requests (snd r)
      /\ length (requests (snd r)) <= length (requests w) + 3)
  /\ (console w `prefix_of` console (snd r)
      /\ length (console (snd r)) <= length (console w) + 1)
  /\ (isAuthenticated = false ->
      pendingMessages (snd r) = pendingMessages w
      /\ activeThreadId (snd r) = activeThreadId w
      /\ length (requests (snd r)) <= length (requests w) + 1
      /\ Forall (fun q => url q = "/api/chat/guest" /\ credentials q = false)
           (drop (length (requests w)) (requests (snd r))))
  /\ (isAuthenticated = true ->
      guestMessages (snd r) = guestMessages w
      /\ freeRequestsUsed (snd r) = freeRequestsUsed w
      /\ free_request_item (snd r) = free_request_item w
      /\ showAuthPrompt (snd r) = showAuthPrompt w
      /\ Forall (fun q => credentials q = true)
           (drop (length (requests w)) (requests (snd r)))
      /\ Forall (fun p => DisplayMessage.thread_id p = activeThreadId (snd r)
                          /\ DisplayMessage.thread_id p <> None)
           (drop (length (pendingMessages w)) (pendingMessages (snd r)))).
Proof.
  intros r.
  assert (Hr : handleSend trim new_Date net now later isAuthenticated db model w = r)
    by reflexivity.
  clearbody r. revert Hr. destruct isAuthenticated.
  - destruct (activeThreadId w) as [t|] eqn:Hact; [destruct (Z.eqb t 0) eqn:Ht0|];
      hs_cases trim net w; intros <-; hs_leaf.
  - hs_cases trim net w; intros <-; hs_leaf.
Qed.

(** X10: [handleSend] never rejects, whatever the network does: a failure
    of any request or of the stream is caught, and at most one error is
    logged for the run. *)
Theorem handleSend_never_rejects (trim : string -> string) (new_Date : string -> Date)
    (net : Request -> FetchOutcome) (now later : Z) (isAuthenticated : bool)
    (db : list Message.t) (model : string) (w : World) :
  fst (handleSend trim new_Date net now later isAuthenticated db model w) = Ok tt
  /\ console w
       `prefix_of` console (snd (handleSend trim new_Date net now later isAuthenticated
                                  db model w))
  /\ length (console (snd (handleSend trim new_Date net now later isAuthenticated
                              db model w)))
     <= length (console w) + 1.
Proof.
  pose proof (handleSend_frame trim new_Date net now later isAuthenticated db model w)
    as (Hok & _ & _ & _ & _ & _ & (Hpre & Hlen) & _).
  auto.
Qed.

(** X11: with nothing to send (the trimmed input is empty) or while a
    send is in flight, [handleSend] changes nothing: no state is set and
    no request is made. *)
Theorem handleSend_guard (trim : string -> string) (new_Date : string -> Date)
    (net : Request -> FetchOutcome) (now later : Z) (isAuthenticated : bool)
    (db : list Message.t) (model : string) (w : World) :
  truthy (trim (input w)) && negb (isLoading w) = false ->
  handleSend trim new_Date net now later isAuthenticated db model w = (Ok tt, w).
Proof.
  intros Hguard.
  pose proof (handleSend_frame trim new_Date net now later isAuthenticated db model w)
    as (Hok & Hsame & _).
  specialize (Hsame Hguard).
  destruct (handleSend trim new_Date net now later isAuthenticated db model w) as [r w'].
  cbn [fst snd] in *. now subst.
Qed.

Lemma handleSend_guard_witness :
  handleSend ascii_trim Scenario.new_Date0 Example.net_ok 5 9 true [] "openai/gpt-4o"
    (snd (setInput "   " Scenario.signed_in))
  = (Ok tt, snd (setInput "   " Scenario.signed_in)).
Proof.
  apply (handleSend_guard ascii_trim Scenario.new_Date0 Example.net_ok 5 9 true []
           "openai/gpt-4o" (snd (setInput "   " Scenario.signed_in))).
  reflexivity.
Defined.

(** X12: every run that passes the entry guard ends with the input
    cleared, the loading flag down and no streaming content, on every
    path and whatever the network answered. *)
Theorem handleSend_resets (trim : string -> string) (new_Date : string -> Date)
    (net : Request -> FetchOutcome) (now later : Z) (isAuthenticated : bool)
    (db : list Message.t) (model : string) (w : World) :
  truthy (trim (input w)) = true ->
  isLoading w = false ->
  input (snd (handleSend trim new_Date net now later isAuthenticated db model w)) = ""
  /\ isLoading (snd (handleSend trim new_Date net now later isAuthenticated db model w))
     = false
  /\ streamingContent
       (snd (handleSend trim new_Date net now later isAuthenticated db model w)) = "".
Proof.
  intros Htrim Hload.
  pose proof (handleSend_frame trim new_Date net now later isAuthenticated db model w)
    as (_ & _ & Hreset & _).
  apply Hreset. now rewrite Htrim, Hload.
Qed.

Lemma handleSend_resets_witness :
  truthy (ascii_trim (input Scenario.signed_in)) = true
  /\ isLoading
       (snd (handleSend ascii_trim Scenario.new_Date0 Scenario.net_abort 5 9 true []
               "openai/gpt-4o" Scenario.signed_in)) = false.
Proof.
  split; [reflexivity|].
  apply (handleSend_resets ascii_trim Scenario.new_Date0 Scenario.net_abort 5 9 true []
           "openai/gpt-4o" Scenario.signed_in); reflexivity.
Defined.

(** X13: a run only appends.  The guest messages, the pending buffer
    and the request log after a run start with what they held before
    it; a run adds at most two guest messages, two pending entries and
    three requests. *)
Theorem handleSend_appends_only (trim : string -> string) (new_Date : string -> Date)
    (net : Request -> FetchOutcome) (now later : Z) (isAuthenticated : bool)
    (db : list Message.t) (model : string) (w : World) :
  let w' := snd (handleSend trim new_Date net now later isAuthenticated db model w) in
  (guestMessages w `prefix_of` guestMessages w'
   /\ length (guestMessages w') <= length (guestMessages w) + 2)
  /\ (pendingMessages w `prefix_of` pendingMessages w'
      /\ length (pendingMessages w') <= length (pendingMessages w) + 2)
  /\ (requests w `prefix_of` requests w'
      /\ length (requests w') <= length (requests w) + 3).
Proof.
  pose proof (handleSend_frame trim new_Date net now later isAuthenticated db model w)
    as (_ & _ & _ & Hg & Hp & Hr & _).
  cbv zeta in *. auto.
Qed.

(** X14: a guest's run stays on the guest path.  It leaves the pending
    buffer and the open thread alone, makes at most one request, and
    that request goes to the guest endpoint without credentials. *)
Theorem guest_run_is_isolated (trim : string -> string) (new_Date : string -> Date)
    (net : Request -> FetchOutcome) (now later : Z)
    (db : list Message.t) (model : string) (w : World) :
  let w' := snd (handleSend trim new_Date net now later false db model w) in
  pendingMessages w' = pendingMessages w
  /\ activeThreadId w' = activeThreadId w
  /\ length (requests w') <= length (requests w) + 1
  /\ Forall (fun q => url q = "/api/chat/guest" /\ credentials q = false)
       (drop (length (requests w)) (requests w')).
Proof.
  pose proof (handleSend_frame trim new_Date net now later false db model w)
    as (_ & _ & _ & _ & _ & _ & _ & Hguest & _).
  cbv zeta in *. now apply Hguest.
Qed.

(** X15: a signed-in run stays on the signed-in path.  It leaves the
    guest messages, the free request counters and the sign-in prompt
    alone; every request it makes carries the credentials; and every
    entry it adds to the pending buffer belongs to the thread that is
    open when the run ends. *)
Theorem signed_in_run_is_isolated (trim : string -> string) (new_Date : string -> Date)
    (net : Request -> FetchOutcome) (now later : Z)
    (db : list Message.t) (model : string) (w : World) :
  let w' := snd (handleSend trim new_Date net now later true db model w) in
  guestMessages w' = guestMessages w
  /\ freeRequestsUsed w' = freeRequestsUsed w
  /\ free_request_item w' = free_request_item w
  /\ showAuthPrompt w' = showAuthPrompt w
  /\ Forall (fun q => credentials q = true) (drop (length (requests w)) (requests w'))
  /\ Forall (fun p => DisplayMessage.thread_id p = activeThreadId w'
                      /\ DisplayMessage.thread_id p <> None)
       (drop (length (pendingMessages w)) (pendingMessages w')).
Proof.
  pose proof (handleSend_frame trim new_Date net now later true db model w)
    as (_ & _ & _ & _ & _ & _ & _ & _ & Hauth).
  cbv zeta in *. now apply Hauth.
Qed.

(** ** Particular runs of the submit handler *)

Lemma string_app_nil_l (a : string) : ("" ++ a)%string = a.
Proof. reflexivity. Qed.

(** A case split that first uses what is known of the network. *)
Ltac hs_known net :=
  first
    [ match goal with |- context [Z.eqb 0 0] => change (Z.eqb 0 0) with true end
    | match goal with H : net ?r = _ |- context [net ?r] => rewrite H end
    | match goal with H : forall x, net _ = _ |- context [net _] => rewrite H end
    | match goal with H : ok ?r = _ |- context [ok ?r] => rewrite H end
    | match goal with H : json ?r = _ |- context [json ?r] => rewrite H end
    | match goal with H : stream ?r = _ |- context [stream ?r] => rewrite H end
    | match goal with H : stream_end ?s = _ |- context [stream_end ?s] => rewrite H end
    | match goal with H : truthy ?s = _ |- context [truthy ?s] => rewrite H end
    | match goal with H : Z.leb ?a ?b = _ |- context [Z.leb ?a ?b] => rewrite H end
    | match goal with H : Z.eqb ?a ?b = _ |- context [Z.eqb ?a ?b] => rewrite H end
    | match goal with
      | |- context [read_stream ?cs ?e ?acc ?W] =>
          rewrite (read_stream_run cs e acc W), ?string_app_nil_l
      end
    | match goal with
      | |- context [match ?x with Closed => _ | Aborted => _ end] => destruct x eqn:?
      end
    | match goal with
      | |- context [match ?x with [] => _ | _ :: _ => _ end] => destruct x eqn:?
      end ];
  cbv beta iota; unfold_M; cbn [negb orb andb fst snd].

Ltac hs_run net w :=
  destruct w as [inp ld sc0 gm fr sp act pm fi rq cn];
  unfold handleSend, guest_send, auth_send, createThread, addMessage, read_response, fetch;
  cbn [input isLoading activeThreadId guestMessages freeRequestsUsed showAuthPrompt
       pendingMessages free_request_item requests console streamingContent] in *;
  subst;
  unfold incrementFreeRequestCount, getFreeRequestCount;
  unfold_M; cbn [negb orb andb from_option Datatypes.id];
  repeat first [hs_known net | hs_step net].

Ltac hs_done :=
  cbn [fst snd input isLoading activeThreadId guestMessages freeRequestsUsed showAuthPrompt
       pendingMessages free_request_item requests console streamingContent negb andb
       Thread.id];
  rewrite <- ?app_assoc; cbn [app];
  repeat split; try reflexivity; try discriminate; try (eexists; reflexivity).

Lemma truthy_substring (s : string) (n : nat) :
  truthy s = true -> truthy (substring 0 (S n) s) = true.
Proof. destruct s; [discriminate | reflexivity]. Qed.

(** The final state of a guest's send whose completion arrives whole. *)
Lemma guest_success_run (trim : string -> string) (new_Date : string -> Date)
    (net : Request -> FetchOutcome) (now later : Z)
    (db : list Message.t) (model : string) (w : World) (res : Response) (s : Stream) :
  truthy (trim (input w)) = true ->
  isLoading w = false ->
  Z.leb FREE_REQUEST_LIMIT (freeRequestsUsed w) = false ->
  (forall msgs, net (mkRequest "/api/chat/guest" false (GuestChatBody msgs model))
                = Responded res) ->
  ok res = true ->
  stream res = Some s ->
  stream_end s = Closed ->
  handleSend trim new_Date net now later false db model w
  = (Ok tt,
     mkWorld "" false ""
       (guestMessages w
        ++ [GuestMessage.mk now user (trim (input w));
            GuestMessage.mk (later + 1) assistant
              (fold_right String.append "" (chunks s))])
       (free_request_item w + 1)
       (if Z.leb FREE_REQUEST_LIMIT (free_request_item w + 1) then true
        else showAuthPrompt w)
       (activeThreadId w) (pendingMessages w) (free_request_item w + 1)
       (requests w
        ++ [mkRequest "/api/chat/guest" false
              (GuestChatBody
                 (map (fun m => (role_string (GuestMessage.role m), GuestMessage.content m))
                    (guestMessages w)
                  ++ [("user", trim (input w))]) model)])
       (console w)).
Proof.
  intros Htrim Hload Hfree Hnet Hok Hs He.
  hs_run net w; rewrite <- ?app_assoc; reflexivity.
Qed.

(** X16: a guest's send whose completion arrives whole.  The guest
    messages gain the user's text and then the assistant's answer (the
    chunks joined, also when that is empty); the stored counter goes up
    by one and the page's count is set from it; the prompt comes up when
    the count reaches the limit; one request was made, carrying the
    earlier conversation followed by the new text. *)
Theorem guest_send_success (trim : string -> string) (new_Date : string -> Date)
    (net : Request -> FetchOutcome) (now later : Z)
    (db : list Message.t) (model : string) (w : World) (res : Response) (s : Stream) :
  truthy (trim (input w)) = true ->
  isLoading w = false ->
  (freeRequestsUsed w < FREE_REQUEST_LIMIT)%Z ->
  (forall msgs, net (mkRequest "/api/chat/guest" false (GuestChatBody msgs model))
                = Responded res) ->
  ok res = true ->
  stream res = Some s ->
  stream_end s = Closed ->
  let w' := snd (handleSend trim new_Date net now later false db model w) in
  guestMessages w'
  = guestMessages w
    ++ [GuestMessage.mk now user (trim (input w));
        GuestMessage.mk (later + 1) assistant (fold_right String.append "" (chunks s))]
  /\ free_request_item w' = (free_request_item w + 1)%Z
  /\ freeRequestsUsed w' = (free_request_item w + 1)%Z
  /\ showAuthPrompt w'
     = (if Z.leb FREE_REQUEST_LIMIT (free_request_item w + 1) then true
        else showAuthPrompt w)
  /\ requests w'
     = requests w
       ++ [mkRequest "/api/chat/guest" false
             (GuestChatBody
                (map (fun m => (role_string (GuestMessage.role m), GuestMessage.content m))
                   (guestMessages w)
                 ++ [("user", trim (input w))]) model)]
  /\ console w' = console w.
Proof.
  intros Htrim Hload Hfree Hnet Hok Hs He w'. subst w'.
  rewrite (guest_success_run trim new_Date net now later db model w res s);
    try assumption; [|now apply Z.leb_gt].
  repeat split.
Qed.

Lemma guest_send_success_witness :
  guestMessages
    (snd (handleSend ascii_trim Scenario.new_Date0 Example.net_ok 5 9 false []
            "openai/gpt-4o" Example.guest_fresh))
  = [GuestMessage.mk 5 user "Hello"; GuestMessage.mk 10 assistant "Hi there"]
  /\ showAuthPrompt
       (snd (handleSend ascii_trim Scenario.new_Date0 Example.net_ok 5 9 false []
               "openai/gpt-4o" Example.guest_fresh)) = true.
Proof.
  destruct (guest_send_success ascii_trim Scenario.new_Date0 Example.net_ok 5 9 []
              "openai/gpt-4o" Example.guest_fresh
              (mkResponse 200 JOther (Some (mkStream ["Hi "; "there"] Closed)))
              (mkStream ["Hi "; "there"] Closed))
    as (Hg & _ & _ & Hp & _);
    first [ split; [exact Hg | exact Hp]
          | intros; vm_compute; first [reflexivity | discriminate] ].
Defined.

(** X17: one free message, then the gate.  After a guest's first send
    has gone through (the stored counter was not negative), whatever the
    guest types next is not sent: no request is made and no guest
    message is added; a text that is not blank brings up the sign-in
    prompt. *)
Theorem guest_second_send_is_blocked (trim : string -> string)
    (new_Date : string -> Date) (net : Request -> FetchOutcome) (now later : Z)
    (db : list Message.t) (model : string) (w : World) (res : Response) (s : Stream)
    (next : string) :
  truthy (trim (input w)) = true ->
  isLoading w = false ->
  (freeRequestsUsed w < FREE_REQUEST_LIMIT)%Z ->
  (0 <= free_request_item w)%Z ->
  (forall msgs, net (mkRequest "/api/chat/guest" false (GuestChatBody msgs model))
                = Responded res) ->
  ok res = true ->
  stream res = Some s ->
  stream_end s = Closed ->
  let w1 := snd (handleSend trim new_Date net now later false db model w) in
  let w2 := snd (handleSend trim new_Date net now later false db model
                   (snd (setInput next w1))) in
  requests w2 = requests w1
  /\ guestMessages w2 = guestMessages w1
  /\ free_request_item w2 = free_request_item w1
  /\ (truthy (trim next) = true -> showAuthPrompt w2 = true).
Proof.
  intros Htrim Hload Hfree Hitem Hnet Hok Hs He w1 w2. subst w2 w1.
  rewrite (guest_success_run trim new_Date net now later db model w res s);
    try assumption; [|now apply Z.leb_gt].
  unfold handleSend.
  cbn [fst snd setInput modify input isLoading activeThreadId guestMessages
       freeRequestsUsed showAuthPrompt pendingMessages free_request_item requests
       console streamingContent negb orb].
  assert (Hlim : Z.leb FREE_REQUEST_LIMIT (free_request_item w + 1) = true).
  { apply Z.leb_le. unfold FREE_REQUEST_LIMIT. lia. }
  rewrite Hlim.
  destruct (truthy (trim next)); unfold_M; cbn [negb orb fst snd];
    repeat split; congruence.
Qed.

Lemma guest_second_send_is_blocked_witness :
  (0 <= free_request_item Example.guest_fresh)%Z
  /\ requests
       (snd (handleSend ascii_trim Scenario.new_Date0 Example.net_ok 5 9 false []
               "openai/gpt-4o"
               (snd (setInput "More"
                       (snd (handleSend ascii_trim Scenario.new_Date0 Example.net_ok 5 9
                               false [] "openai/gpt-4o" Example.guest_fresh))))))
     = requests
         (snd (handleSend ascii_trim Scenario.new_Date0 Example.net_ok 5 9 false []
                 "openai/gpt-4o" Example.guest_fresh)).
Proof.
  split; [vm_compute; discriminate|].
  destruct (guest_second_send_is_blocked ascii_trim Scenario.new_Date0 Example.net_ok 5 9 []
              "openai/gpt-4o" Example.guest_fresh
              (mkResponse 200 JOther (Some (mkStream ["Hi "; "there"] Closed)))
              (mkStream ["Hi "; "there"] Closed) "More")
    as (Hr & _);
    first [ exact Hr | intros; vm_compute; first [reflexivity | discriminate] ].
Defined.

(** X18: a signed-in send in an open thread whose completion arrives
    whole.  Two requests are made, in this order: the user's message is
    stored, then the completion is asked for with the rows of the open
    thread followed by the new text.  The pending buffer gains the
    user's entry and, when the answer is not empty, the assistant's
    entry after it, both in the open thread; the thread stays open and
    nothing is logged. *)
Theorem signed_in_send_success (trim : string -> string) (new_Date : string -> Date)
    (net : Request -> FetchOutcome) (now later : Z)
    (db : list Message.t) (model : string) (w : World) (t : Z)
    (stored : Response) (i th : Z) (ro co : string) (ca : option string)
    (res : Response) (s : Stream) :
  truthy (trim (input w)) = true ->
  isLoading w = false ->
  activeThreadId w = Some t ->
  Z.eqb t 0 = false ->
  net (mkRequest "/api/chat/mutations" true (AddMessageBody t "user" (trim (input w))))
  = Responded stored ->
  ok stored = true ->
  json stored = JMessage i th ro co ca ->
  (forall msgs, net (mkRequest "/api/chat/ai" true (AiChatBody t msgs model))
                = Responded res) ->
  ok res = true ->
  stream res = Some s ->
  stream_end s = Closed ->
  let w' := snd (handleSend trim new_Date net now later true db model w) in
  let answer := fold_right String.append "" (chunks s) in
  pendingMessages w'
  = pendingMessages w
    ++ DisplayMessage.mk now "user" (trim (input w)) (Some t) (Some now)
       :: (if truthy answer
           then [DisplayMessage.mk (later + 1) "assistant" answer (Some t) (Some later)]
           else [])
  /\ requests w'
     = requests w
       ++ [mkRequest "/api/chat/mutations" true (AddMessageBody t "user" (trim (input w)));
           mkRequest "/api/chat/ai" true
             (AiChatBody t
                (map (fun m => (Message.role m, Message.content m))
                   (List.filter (fun m => Z.eqb (Message.thread_id m) t) db)
                 ++ [("user", trim (input w))]) model)]
  /\ activeThreadId w' = Some t
  /\ console w' = console w.
Proof.
  intros Htrim Hload Hact Ht Hadd Hok1 Hj Hai Hok2 Hs He w' answer.
  subst w' answer. hs_run net w; hs_done.
Qed.

Lemma signed_in_send_success_witness :
  pendingMessages
    (snd (handleSend ascii_trim Scenario.new_Date0 Example.net_ok 5 9 true []
            "openai/gpt-4o" Scenario.signed_in))
  = [DisplayMessage.mk 5 "user" "Hello" (Some 7%Z) (Some 5%Z);
     DisplayMessage.mk 10 "assistant" "Hi there" (Some 7%Z) (Some 9%Z)].
Proof.
  destruct (signed_in_send_success ascii_trim Scenario.new_Date0 Example.net_ok 5 9 []
              "openai/gpt-4o" Scenario.signed_in 7
              (mkResponse 200 (JMessage 101 7 "user" "Hello" None) None)
              101 7 "user" "Hello" None
              (mkResponse 200 JOther (Some (mkStream ["Hi "; "there"] Closed)))
              (mkStream ["Hi "; "there"] Closed))
    as (Hp & _);
    first [ exact Hp | intros; vm_compute; first [reflexivity | discriminate] ].
Defined.

(** X19: a first message opens a thread.  With no thread open (none, or
    the id 0, which counts as none), the run first asks for a thread
    titled with the first 40 characters of the trimmed text; once that
    is created the new thread is open, the user's pending entry carries
    its id, and the message is sent to it, whatever happens to the later
    requests. *)
Theorem first_message_opens_thread (trim : string -> string) (new_Date : string -> Date)
    (net : Request -> FetchOutcome) (now later : Z)
    (db : list Message.t) (model : string) (w : World)
    (made : Response) (i : Z) (title : string) (ca : option string) :
  truthy (trim (input w)) = true ->
  isLoading w = false ->
  activeThreadId w = None \/ activeThreadId w = Some 0%Z ->
  net (mkRequest "/api/chat/mutations" true
         (CreateThreadBody (substring 0 40 (trim (input w)))))
  = Responded made ->
  ok made = true ->
  json made = JThread i title ca ->
  let w' := snd (handleSend trim new_Date net now later true db model w) in
  activeThreadId w' = Some i
  /\ (exists more,
        pendingMessages w'
        = pendingMessages w
          ++ DisplayMessage.mk now "user" (trim (input w)) (Some i) (Some now) :: more)
  /\ (exists more,
        requests w'
        = requests w
          ++ mkRequest "/api/chat/mutations" true
               (CreateThreadBody (substring 0 40 (trim (input w))))
             :: mkRequest "/api/chat/mutations" true
                  (AddMessageBody i "user" (trim (input w)))
             :: more).
Proof.
  intros Htrim Hload Hact Hnet Hok Hj w'. subst w'.
  pose proof (truthy_substring _ 39 Htrim) as Htitle.
  destruct Hact as [Hact|Hact]; hs_run net w; hs_done.
Qed.

Lemma first_message_opens_thread_witness :
  activeThreadId
    (snd (handleSend ascii_trim Scenario.new_Date0 Example.net_ok 5 9 true []
            "openai/gpt-4o" Example.signed_in_no_thread)) = Some 9%Z.
Proof.
  destruct (first_message_opens_thread ascii_trim Scenario.new_Date0 Example.net_ok 5 9 []
              "openai/gpt-4o" Example.signed_in_no_thread
              (mkResponse 200 (JThread 9 "Hello" None) None) 9 "Hello" None)
    as (Ha & _);
    first [ exact Ha | left; reflexivity
          | intros; vm_compute; first [reflexivity | discriminate] ].
Defined.

(** X20: when the thread cannot be created (the request is rejected or
    answered with a status that is not ok), nothing is buffered and
    nothing else is sent: the pending buffer and the open thread are as
    before, the only request is the one that failed, and the error is
    logged. *)
Theorem failed_thread_creation_sends_nothing (trim : string -> string)
    (new_Date : string -> Date) (net : Request -> FetchOutcome) (now later : Z)
    (db : list Message.t) (model : string) (w : World) :
  truthy (trim (input w)) = true ->
  isLoading w = false ->
  activeThreadId w = None \/ activeThreadId w = Some 0%Z ->
  (net (mkRequest "/api/chat/mutations" true
          (CreateThreadBody (substring 0 40 (trim (input w))))) = Rejected
   \/ exists res,
        net (mkRequest "/api/chat/mutations" true
               (CreateThreadBody (substring 0 40 (trim (input w))))) = Responded res
        /\ ok res = false) ->
  let w' := snd (handleSend trim new_Date net now later true db model w) in
  pendingMessages w' = pendingMessages w
  /\ activeThreadId w' = activeThreadId w
  /\ requests w'
     = requests w
       ++ [mkRequest "/api/chat/mutations" true
             (CreateThreadBody (substring 0 40 (trim (input w))))]
  /\ length (console w') = length (console w) + 1.
Proof.
  intros Htrim Hload Hact Hnet w'. subst w'.
  pose proof (truthy_substring _ 39 Htrim) as Htitle.
  destruct Hnet as [Hnet|(res & Hnet & Hok)];
    destruct Hact as [Hact|Hact]; hs_run net w; hs_done;
    rewrite length_app; reflexivity.
Qed.

Lemma failed_thread_creation_sends_nothing_witness :
  pendingMessages
    (snd (handleSend ascii_trim Scenario.new_Date0 (Scenario.net_status 500) 5 9 true []
            "openai/gpt-4o" Example.signed_in_no_thread)) = [].
Proof.
  destruct (failed_thread_creation_sends_nothing ascii_trim Scenario.new_Date0
              (Scenario.net_status 500) 5 9 [] "openai/gpt-4o" Example.signed_in_no_thread)
    as (Hp & _);
    first [ exact Hp | left; reflexivity
          | right; eexists; split; reflexivity
          | intros; vm_compute; first [reflexivity | discriminate] ].
Defined.



(** X22: the mutation calls work on the server only.  Whatever the
    answer, [createThread] and [addMessage] change nothing of the page
    but the log of requests made: no message or thread is put into any
    local state by them. *)
Theorem mutations_touch_only_the_network (new_Date : string -> Date)
    (net : Request -> FetchOutcome) (now : Z) (title : option string)
    (threadId : Z) (role content : string) (w : World) :
  snd (createThread new_Date net now title w)
  = snd (log_request (mkRequest "/api/chat/mutations" true
                        (CreateThreadBody (default "New chat" title))) w)
  /\ snd (addMessage new_Date net now threadId role content w)
     = snd (log_request (mkRequest "/api/chat/mutations" true
                           (AddMessageBody threadId role content)) w).
Proof.
  split.
  - unfold createThread. rewrite M_bind_run, fetch_run.
    destruct (net _) as [|res]; [reflexivity|].
    cbv beta iota. destruct (ok res); cbn [negb]; [|reflexivity].
    destruct (json res); reflexivity.
  - unfold addMessage. rewrite M_bind_run, fetch_run.
    destruct (net _) as [|res]; [reflexivity|].
    cbv beta iota. destruct (ok res); cbn [negb]; [|reflexivity].
    destruct (json res); reflexivity.
Qed.

(** ** A stream that breaks, on every path *)




(** ** Stored preferences *)

(** X23: the model read back from the storage is always one of the
    models on offer, whatever the storage holds; without a window, a
    stored value, or with a value that is not on offer, it is the first
    model. *)
Theorem getStoredModel_is_available (window : option LocalStorage.Window) :
  In (LocalStorage.getStoredModel window)
    (map LocalStorage.id LocalStorage.AVAILABLE_MODELS)
  /\ (forall w,
        window = Some w ->
        ~ In (default "" (LocalStorage.localStorage w !! LocalStorage.MODEL_STORAGE_KEY))
            (map LocalStorage.id LocalStorage.AVAILABLE_MODELS) ->
        LocalStorage.getStoredModel window = LocalStorage.default_model)
  /\ LocalStorage.getStoredModel None = LocalStorage.default_model.
Proof.
  assert (Hdef : In LocalStorage.default_model
                   (map LocalStorage.id LocalStorage.AVAILABLE_MODELS))
    by (simpl; auto).
  assert (Hin : forall stored,
            existsb (fun m => String.eqb (LocalStorage.id m) stored)
              LocalStorage.AVAILABLE_MODELS = true ->
            In stored (map LocalStorage.id LocalStorage.AVAILABLE_MODELS)).
  { intros stored H. apply existsb_exists in H as (m & Hm & He).
    apply String.eqb_eq in He. subst stored. now apply in_map. }
  repeat split.
  - unfold LocalStorage.getStoredModel. destruct window as [w|]; [|exact Hdef].
    destruct (LocalStorage.localStorage w !! LocalStorage.MODEL_STORAGE_KEY) as [stored|];
      [|exact Hdef].
    destruct (truthy stored); cbn [andb]; [|exact Hdef].
    destruct (existsb _ _) eqn:He; [now apply Hin | exact Hdef].
  - intros w -> Hnot. unfold LocalStorage.getStoredModel.
    destruct (LocalStorage.localStorage w !! LocalStorage.MODEL_STORAGE_KEY) as [stored|];
      [|reflexivity].
    cbn [default from_option Datatypes.id] in Hnot.
    destruct (truthy stored); cbn [andb]; [|reflexivity].
    destruct (existsb _ _) eqn:He; [|reflexivity].
    destruct Hnot. now apply Hin.
Qed.

(** X24: storing a model on offer and reading it back gives that model,
    and storing a model does not change the stored colour scheme. *)
Theorem setStoredModel_round_trip (model : string) (w : LocalStorage.Window) :
  In model (map LocalStorage.id LocalStorage.AVAILABLE_MODELS) ->
  LocalStorage.getStoredModel (Some (LocalStorage.setStoredModel model w)) = model
  /\ LocalStorage.getStoredDarkMode (Some (LocalStorage.setStoredModel model w))
     = LocalStorage.getStoredDarkMode (Some w).
Proof.
  intros Hin. split.
  - unfold LocalStorage.getStoredModel, LocalStorage.setStoredModel.
    cbn [LocalStorage.localStorage]. rewrite lookup_insert_eq.
    simpl in Hin. destruct Hin as [<-|[<-|[<-|[]]]]; reflexivity.
  - unfold LocalStorage.getStoredDarkMode, LocalStorage.setStoredModel.
    cbn [LocalStorage.localStorage LocalStorage.prefers_dark].
    now rewrite lookup_insert_ne.
Qed.

Lemma setStoredModel_round_trip_witness :
  LocalStorage.getStoredModel
    (Some (LocalStorage.setStoredModel "openai/gpt-4o" Example.window0))
  = "openai/gpt-4o".
Proof.
  apply (setStoredModel_round_trip "openai/gpt-4o" Example.window0).
  simpl. auto.
Defined.

(** ** The collections are made once *)

Lemma call_keeps_threads (g : Collections.Getter) (r : Collections.Registry) (c : nat) :
  Collections._chatThreadsCollection r = Some c ->
  Collections._chatThreadsCollection (snd (Collections.call g r)) = Some c.
Proof.
  intros H. destruct g; cbn [Collections.call].
  - unfold Collections.getChatThreadsCollection. now rewrite H.
  - unfold Collections.getChatMessagesCollection.
    destruct (Collections._chatMessagesCollection r); exact H.
Qed.

Lemma call_keeps_messages (g : Collections.Getter) (r : Collections.Registry) (c : nat) :
  Collections._chatMessagesCollection r = Some c ->
  Collections._chatMessagesCollection (snd (Collections.call g r)) = Some c.
Proof.
  intros H. destruct g; cbn [Collections.call].
  - unfold Collections.getChatThreadsCollection.
    destruct (Collections._chatThreadsCollection r); exact H.
  - unfold Collections.getChatMessagesCollection. now rewrite H.
Qed.

(** What a call returned is what the module variable holds from then on. *)
Lemma call_result (g : Collections.Getter) (r : Collections.Registry) :
  match g with
  | Collections.GetThreads =>
      Collections._chatThreadsCollection (snd (Collections.call g r))
  | Collections.GetMessages =>
      Collections._chatMessagesCollection (snd (Collections.call g r))
  end = Some (fst (Collections.call g r)).
Proof.
  destruct g; cbn [Collections.call].
  - unfold Collections.getChatThreadsCollection.
    destruct (Collections._chatThreadsCollection r) eqn:E; [exact E | reflexivity].
  - unfold Collections.getChatMessagesCollection.
    destruct (Collections._chatMessagesCollection r) eqn:E; [exact E | reflexivity].
Qed.

Lemma call_ok (g : Collections.Getter) (r : Collections.Registry) :
  registry_ok r -> registry_ok (snd (Collections.call g r)).
Proof.
  intros Hok. pose proof Hok as (Ht & Hm & Hlen).
  destruct g; cbn [Collections.call].
  - unfold Collections.getChatThreadsCollection.
    destruct (Collections._chatThreadsCollection r) as [c|] eqn:E; [exact Hok|].
    unfold registry_ok. cbn. repeat split.
    + intros c [= <-]. apply lookup_last_cell.
    + intros c Hc. rewrite lookup_app_l; [now apply Hm|].
      eapply lookup_lt_Some. now apply Hm.
    + rewrite length_app, Hlen. cbn. lia.
  - unfold Collections.getChatMessagesCollection.
    destruct (Collections._chatMessagesCollection r) as [c|] eqn:E; [exact Hok|].
    unfold registry_ok. cbn. repeat split.
    + intros c Hc. rewrite lookup_app_l; [now apply Ht|].
      eapply lookup_lt_Some. now apply Ht.
    + intros c [= <-]. apply lookup_last_cell.
    + rewrite length_app, Hlen. cbn. lia.
Qed.

Lemma calls_results (gs : list Collections.Getter) :
  forall r,
    registry_ok r ->
    registry_ok (snd (Collections.calls gs r))
    /\ (forall c, Collections._chatThreadsCollection r = Some c ->
                  Collections._chatThreadsCollection (snd (Collections.calls gs r)) = Some c)
    /\ (forall c, Collections._chatMessagesCollection r = Some c ->
                  Collections._chatMessagesCollection (snd (Collections.calls gs r)) = Some c)
    /\ Forall (fun gc =>
                 match fst gc with
                 | Collections.GetThreads =>
                     Collections._chatThreadsCollection (snd (Collections.calls gs r))
                 | Collections.GetMessages =>
                     Collections._chatMessagesCollection (snd (Collections.calls gs r))
                 end = Some (snd gc))
         (fst (Collections.calls gs r)).
Proof.
  induction gs as [|g gs IH]; intros r Hok; cbn [Collections.calls].
  - cbn. split; [exact Hok|]. repeat split; auto.
  - pose proof (call_ok g r Hok) as Hok1.
    pose proof (call_result g r) as Hres.
    pose proof (call_keeps_threads g r) as Hkt.
    pose proof (call_keeps_messages g r) as Hkm.
    destruct (Collections.call g r) as [c r1]. cbn [fst snd] in *.
    destruct (IH r1 Hok1) as (Hok2 & Ht & Hm & Hall).
    destruct (Collections.calls gs r1) as [cs r2]. cbn [fst snd] in *.
    split; [exact Hok2|]. split; [auto|]. split; [auto|].
    constructor; [|exact Hall].
    cbn [fst snd]. destruct g; auto.
Qed.

(** X25: each chat collection is made once.  In any sequence of calls
    of the two getters from the freshly loaded module, all calls of a
    getter return the same collection, the two getters never return the
    same one, and besides the users collection no more than two
    collections are ever made. *)
Theorem collections_are_singletons (gs : list Collections.Getter) :
  let results := fst (Collections.calls gs Collections.initial) in
  (forall g c c', In (g, c) results -> In (g, c') results -> c = c')
  /\ (forall c c', In (Collections.GetThreads, c) results ->
                   In (Collections.GetMessages, c') results -> c <> c')
  /\ length (Collections.created (snd (Collections.calls gs Collections.initial))) <= 3.
Proof.
  intros results. subst results.
  assert (Hinit : registry_ok Collections.initial).
  { unfold registry_ok, Collections.initial. cbn. repeat split; intros; discriminate. }
  destruct (calls_results gs Collections.initial Hinit) as ((Ht & Hm & Hlen) & _ & _ & Hall).
  rewrite List.Forall_forall in Hall.
  repeat split.
  - intros g c c' H1 H2. apply Hall in H1, H2. cbn [fst snd] in *.
    destruct g; congruence.
  - intros c c' H1 H2 ->. apply Hall in H1, H2. cbn [fst snd] in *.
    apply Ht in H1. apply Hm in H2. congruence.
  - rewrite Hlen.
    destruct (Collections._chatThreadsCollection _),
      (Collections._chatMessagesCollection _); cbn; lia.
Qed.

(** ** File names and sizes *)

Lemma split_nonempty (sep : Ascii.ascii) (s : string) : FileView.split sep s <> [].
Proof.
  destruct s as [|c s]; cbn; [discriminate|].
  destruct (Ascii.eqb c sep); [discriminate|].
  destruct (FileView.split sep s); discriminate.
Qed.

Lemma split_without_sep (sep : Ascii.ascii) (s : string) :
  ~ In sep (list_ascii_of_string s) -> FileView.split sep s = [s].
Proof.
  induction s as [|c s IH]; cbn; [reflexivity|].
  intros Hnot. destruct (Ascii.eqb_spec c sep) as [->|_].
  - destruct Hnot. now left.
  - rewrite IH; [reflexivity|]. intros H. apply Hnot. now right.
Qed.

Lemma split_app_sep (sep : Ascii.ascii) (a b : string) :
  FileView.split sep (a ++ String sep b)
  = FileView.split sep a ++ FileView.split sep b.
Proof.
  induction a as [|c a IH].
  - change (EmptyString ++ String sep b)%string with (String sep b).
    cbn [FileView.split app]. now rewrite Ascii.eqb_refl.
  - change (String c a ++ String sep b)%string with (String c (a ++ String sep b)).
    cbn [FileView.split]. rewrite IH.
    destruct (Ascii.eqb c sep); [reflexivity|].
    destruct (FileView.split sep a) as [|p ps] eqn:E; [|reflexivity].
    now destruct (split_nonempty sep a).
Qed.

(** X26: the extension of a file name.  For a path that ends in a dot
    followed by a piece without dots, the extension is that piece in
    lower case, whatever comes before the dot (nothing, for a dot file)
    and also when the piece is empty (a trailing dot); a path without
    any dot has the empty extension. *)
Theorem getFileExtension_last_piece (toLowerCase : string -> string)
    (base e : string) :
  ~ In FileView.dot (list_ascii_of_string e) ->
  FileView.getFileExtension toLowerCase (base ++ String FileView.dot e) = toLowerCase e
  /\ FileView.getFileExtension toLowerCase e = EmptyString.
Proof.
  intros Hnot. unfold FileView.getFileExtension. split.
  - rewrite split_app_sep, (split_without_sep _ e Hnot).
    rewrite length_app, List.last_last. cbn [length].
    destruct (FileView.split FileView.dot base) as [|p ps] eqn:E.
    + now destruct (split_nonempty FileView.dot base).
    + cbn [length].
      destruct (Nat.ltb_spec 1 (S (length ps) + 1)) as [_|Hle]; [reflexivity | lia].
  - now rewrite (split_without_sep _ e Hnot).
Qed.

Lemma getFileExtension_last_piece_witness :
  FileView.getFileExtension FileView.ascii_toLowerCase "src/App.test.TSX" = "tsx".
Proof.
  apply (getFileExtension_last_piece FileView.ascii_toLowerCase "src/App.test" "TSX").
  cbn. intros [H|[H|[H|[]]]]; discriminate.
Defined.

(** X27: the size shown for a file of 1024 bytes or more, up to the
    largest whole number the number type holds exactly.  It is a number
    with one decimal followed by the unit, KB below 1024 * 1024 bytes
    and MB from there on; the number shown is within one twentieth of
    the size in that unit, and it is not rounded up into the next unit:
    just under 1024 * 1024 bytes the text is "1024.0 KB". *)
Theorem humanizeSize_rounds_to_tenths (bytes : Z) :
  (1024 <= bytes <= FileView.MAX_SAFE_INTEGER)%Z ->
  let unit := if Z.ltb bytes (1024 * 1024) then 1024%Z else (1024 * 1024)%Z in
  let name := if Z.ltb bytes (1024 * 1024) then " KB" else " MB" in
  (exists n,
      FileView.humanizeSize bytes
      = Some (pretty (n / 10)%Z ++ "." ++ pretty (n mod 10)%Z ++ name)%string
      /\ (0 <= n mod 10 <= 9)%Z
      /\ (10 <= n)%Z
      /\ (2 * Z.abs (unit * n - 10 * bytes) <= unit)%Z)
  /\ FileView.humanizeSize (1024 * 1024 - 1) = Some "1024.0 KB"%string.
Proof.
  intros Hb unit name. split; [|reflexivity].
  unfold FileView.humanizeSize, FileView.toFixed1.
  assert (Hmax : FileView.MAX_SAFE_INTEGER = 9007199254740991%Z) by reflexivity.
  rewrite Hmax in *.
  destruct (Z.leb_spec (Z.abs bytes) 9007199254740991) as [_|?]; [|lia].
  cbn [negb].
  destruct (Z.ltb_spec bytes 1024) as [?|_]; [lia|].
  subst unit name.
  assert (Hp : (10 ^ 21 = 1000000000000000000000)%Z) by reflexivity.
  rewrite !Hp.
  destruct (Z.leb_spec 0 bytes) as [_|?]; [|lia].
  destruct (Z.ltb_spec bytes (1024 * 1024)) as [Hkb|Hmb].
  - destruct (Z.ltb_spec bytes (1024 * 1000000000000000000000)) as [_|?]; [|lia].
    cbn [andb option_map].
    exists (FileView.tenths bytes 1024).
    split; [now rewrite <- !string_app_assoc|].
    unfold FileView.tenths. change (2 * 1024)%Z with 2048%Z.
    repeat split; Z.div_mod_to_equations; lia.
  - destruct (Z.ltb_spec bytes (1024 * 1024 * 1000000000000000000000)) as [_|?]; [|lia].
    cbn [andb option_map].
    exists (FileView.tenths bytes (1024 * 1024)).
    split; [now rewrite <- !string_app_assoc|].
    unfold FileView.tenths. change (2 * (1024 * 1024))%Z with 2097152%Z.
    change (1024 * 1024)%Z with 1048576%Z in *.
    repeat split; Z.div_mod_to_equations; lia.
Qed.

Lemma humanizeSize_rounds_to_tenths_witness :
  FileView.humanizeSize 1536 = Some "1.5 KB"%string
  /\ FileView.humanizeSize (1024 * 1024 - 1) = Some "1024.0 KB"%string.
Proof.
  split; [reflexivity|].
  apply (humanizeSize_rounds_to_tenths 1536). vm_compute. split; discriminate.
Defined.

(** ** The message shape of a signed-in user *)

(** X28: the route hands a user only messages of the user's own
    threads.  With a session whose user id is not empty, every row of
    the shape is a row of the table whose thread belongs to the user
    when the user has a thread, and no message of a thread of the user
    is left out; a user without threads gets only rows with thread id
    -1.  Without a session, or with an empty user id, the answer is
    401 and no row at all. *)
Theorem serve_isolates_users (uid : string) (chat_threads : list Shape.thread_row)
    (chat_messages : list Message.t) :
  truthy uid = true ->
  (exists rows,
      Shape.serve (Some uid) chat_threads chat_messages = Shape.Rows rows
      /\ Forall (fun m =>
                   In m chat_messages
                   /\ ((exists th, In th chat_threads /\ Shape.user_id th = uid
                                   /\ Shape.id th = Message.thread_id m)
                       \/ Message.thread_id m = (-1)%Z)) rows
      /\ Forall (fun m =>
                   (exists th, In th chat_threads /\ Shape.user_id th = uid
                               /\ Shape.id th = Message.thread_id m) ->
                   In m rows) chat_messages)
  /\ Shape.serve None chat_threads chat_messages = Shape.Unauthorized
  /\ Shape.serve (Some ""%string) chat_threads chat_messages = Shape.Unauthorized.
Proof.
  intros Huid. split; [|split; reflexivity].
  unfold Shape.serve, Shape.proxyElectricRequest. rewrite Huid. cbn [negb].
  set (mine := List.filter (fun t => String.eqb (Shape.user_id t) uid) chat_threads).
  assert (Hmine : forall m,
            existsb (Z.eqb (Message.thread_id m)) (map Shape.id mine) = true <->
            exists th, In th chat_threads /\ Shape.user_id th = uid
                       /\ Shape.id th = Message.thread_id m).
  { intros m. rewrite existsb_exists. split.
    - intros (i & Hi & He). apply Z.eqb_eq in He.
      apply in_map_iff in Hi as (th & <- & Hth).
      apply filter_In in Hth as [Hth Hu]. apply String.eqb_eq in Hu. eauto.
    - intros (th & Hth & Hu & Hi). exists (Shape.id th). split.
      + apply in_map, filter_In. split; [assumption|]. now apply String.eqb_eq.
      + apply Z.eqb_eq. congruence. }
  destruct (Nat.ltb_spec 0 (length (map Shape.id mine))) as [Hsome|Hnone].
  - eexists. split; [reflexivity|]. split; apply List.Forall_forall; intros m Hm.
    + apply filter_In in Hm as [Hm Hin]. split; [assumption|]. left. now apply Hmine.
    + intros Hth. apply filter_In. split; [assumption|]. now apply Hmine.
  - eexists. split; [reflexivity|]. split; apply List.Forall_forall; intros m Hm.
    + apply filter_In in Hm as [Hm Hin]. split; [assumption|]. right. now apply Z.eqb_eq.
    + intros Hth. apply Hmine in Hth.
      destruct (map Shape.id mine); [discriminate | cbn in Hnone; lia].
Qed.

Lemma serve_isolates_users_witness :
  Shape.serve (Some "ann"%string)
    [Shape.mk_thread_row 7 "ann"; Shape.mk_thread_row 8 "bob"]
    [Example.row7a; Example.row8; Example.row7b]
  = Shape.Rows [Example.row7a; Example.row7b]
  /\ Shape.serve (Some ""%string)
       [Shape.mk_thread_row 7 "ann"; Shape.mk_thread_row 8 "bob"]
       [Example.row7a; Example.row8; Example.row7b]
     = Shape.Unauthorized.
Proof.
  split; [reflexivity|].
  apply (serve_isolates_users "ann"
           [Shape.mk_thread_row 7 "ann"; Shape.mk_thread_row 8 "bob"]
           [Example.row7a; Example.row8; Example.row7b]).
  reflexivity.
Defined.

(** ** From the send to the settled view *)

Lemma reconcile_all_synced (db : list Message.t) (pending : list DisplayMessage.t) :
  Forall (fun p => isSynced db p = true) pending -> reconcile db pending = [].
Proof.
  intros Hall. rewrite reconcile_filter.
  induction Hall as [|p pending Hp _ IH]; cbn [List.filter]; [reflexivity|].
  now rewrite Hp.
Qed.

Lemma view_all_synced (guest : list GuestMessage.t) (db : list Message.t)
    (t : Z) (pending : list DisplayMessage.t) :
  Forall (fun p => isSynced db p = true) pending ->
  allMessages true guest db (Some t) pending "" = map DisplayMessage.of_Message db.
Proof.
  intros Hall.
  transitivity (allMessages true guest db (Some t) (reconcile db pending) "").
  - unfold allMessages, baseMessages. cbn [negb].
    rewrite reconcile_filter, fold_push_pending_skips_synced; [reflexivity|].
    intros m Hm. now apply in_map.
  - now rewrite reconcile_all_synced.
Qed.

(** X29: once the replica holds a row for every pending entry, the
    buffer empties in one pass and, with a thread open and nothing
    streaming, the view is exactly the rows of the live query, before
    the pass and after it: each message is shown once, as the confirmed
    row. *)
Theorem view_after_full_sync (guest : list GuestMessage.t) (db : list Message.t)
    (t : Z) (pending : list DisplayMessage.t) :
  Forall (fun p => isSynced db p = true) pending ->
  reconcile db pending = []
  /\ allMessages true guest db (Some t) pending ""
     = map DisplayMessage.of_Message db
  /\ allMessages true guest db (Some t) (reconcile db pending) ""
     = map DisplayMessage.of_Message db.
Proof.
  intros Hall. split; [now apply reconcile_all_synced|].
  split; [now apply view_all_synced|].
  now rewrite reconcile_all_synced.
Qed.

Lemma view_after_full_sync_witness :
  allMessages true [] [Scenario.confirmed101] (Some 7%Z)
    [Scenario.hello1; Scenario.hello2] ""
  = [DisplayMessage.of_Message Scenario.confirmed101].
Proof.
  apply (view_after_full_sync [] [Scenario.confirmed101] 7
           [Scenario.hello1; Scenario.hello2]).
  repeat constructor.
Defined.


